(** * ocr_standalone.py: image and PDF text extraction

    A shallow embedding of [src/ocr_standalone.py] and the properties of
    its four functions [preprocess_image], [process_image_file],
    [process_pdf_file] and [main].

    The program is a linear pipeline over third-party collaborators (OpenCV,
    pytesseract, pdf2image, PIL, the file system).  Its functions are
    embedded as computations in a small monad that
    - logs every call to a collaborator, in order, as an [event];
    - carries Python exceptions as a [Raise] result, so that the two
      [try ... except Exception] blocks can be written as [try_except];
    - reads the outcome of every input/output collaborator, inside or
      outside a [try] block, from an environment [Env], which may look at
      the whole history of the run.
    The three OpenCV filters are functions of the image, written out from
    their documented behaviour, with their numeric kernels as parameters. *)

From stdpp Require Import base list strings pretty.
From Stdlib Require Import ZArith Lia Ascii.

Open Scope string_scope.
Open Scope list_scope.
Open Scope Z_scope.

(** ** Data model *)

(** A numpy array as the program sees it: either two-dimensional, shape
    [(H, W)], or three-dimensional, shape [(H, W, C)].  Elements are 8-bit
    intensities, kept as integers. *)
Inductive ndarray :=
| Arr2 (rows : list (list Z))
| Arr3 (rows : list (list (list Z))).

(** [img.shape]. *)
Definition shape (img : ndarray) : list nat :=
  match img with
  | Arr2 rows => [length rows; length (hd [] rows)]
  | Arr3 rows => [length rows; length (hd [] rows); length (hd [] (hd [] rows))]
  end.

(** A page as returned by pdf2image: a PIL image.  [np.array(image)] is its
    pixel buffer. *)
Record PIL_Image := { pil_pixels : ndarray }.

Definition np_array (image : PIL_Image) : ndarray := pil_pixels image.

(** The dictionary [{'page': page_num, 'text': text}]. *)
Record page_result := { page : nat; text : string }.

(** [str(e)] of an exception.  The model has the exceptions of class
    [Exception], the ones that the two handlers of the source catch. *)
Definition Exn := string.

Inductive Result (A : Type) :=
| Ok (a : A)
| Raise (e : Exn).
Arguments Ok {A} a.
Arguments Raise {A} e.

(** ** OpenCV filters used by the preprocessor *)

Inductive color_code := COLOR_BGR2GRAY | COLOR_RGB2GRAY.
Inductive adaptive_method := ADAPTIVE_THRESH_MEAN_C | ADAPTIVE_THRESH_GAUSSIAN_C.
Inductive thresh_type := THRESH_BINARY | THRESH_BINARY_INV.
Inductive morph_op := MORPH_ERODE | MORPH_DILATE | MORPH_OPEN | MORPH_CLOSE.

(** The three filters below are calls into OpenCV, which is not part of
    the sources; each is written out from what section 4.1 of the
    specification says of it, with the argument checks of the library.  The
    numeric kernels are parameters of the model: the luma weights of the
    colour conversion and the smoothing filter of the adaptive threshold
    (fixed-point arithmetic that differs between library versions). *)
Record Filters := {
  luma : Z -> Z -> Z -> Z;
  local_mean : adaptive_method -> Z -> list (list Z) -> nat -> nat -> Z
}.

(** [saturate_cast<uchar>]. *)
Definition saturate_u8 (v : Z) : Z := Z.max 0 (Z.min 255 v).

(** [np.ones((h, w), np.uint8)]. *)
Definition np_ones (h w : nat) : list (list Z) := replicate h (replicate w 1).

Definition gray_of_pixel (F : Filters) (code : color_code) (px : list Z) : Z :=
  let c0 := nth 0 px 0 in
  let c1 := nth 1 px 0 in
  let c2 := nth 2 px 0 in
  match code with
  | COLOR_BGR2GRAY => luma F c0 c1 c2
  | COLOR_RGB2GRAY => luma F c2 c1 c0
  end.

Definition color_pixel (px : list Z) : bool :=
  (length px =? 3)%nat || (length px =? 4)%nat.

(** Modelled from the spec: [cv2.cvtColor(src, code)], the "standard
    luma-weighted conversion" to single-channel grayscale of step 1.  For
    the two to-gray codes the source must have three or four channels, the
    result has one. *)
Definition cvtColor (F : Filters) (src : ndarray) (code : color_code)
  : Result ndarray :=
  match src with
  | Arr2 _ => Raise "cvtColor: invalid number of channels in input image"
  | Arr3 rows =>
      if forallb (forallb color_pixel) rows
      then Ok (Arr2 (map (map (gray_of_pixel F code)) rows))
      else Raise "cvtColor: invalid number of channels in input image"
  end.

Definition threshold_pixel (type : thresh_type) (maxValue C : Z) (s m : Z) : Z :=
  match type with
  | THRESH_BINARY => if (- C <? s - m) then saturate_u8 maxValue else 0
  | THRESH_BINARY_INV => if (- C <? s - m) then 0 else saturate_u8 maxValue
  end.

(** Modelled from the spec: the binarization of step 2, "for each pixel,
    compute a local threshold from a Gaussian-weighted neighborhood of a
    fixed block size with a fixed constant offset subtracted": a pixel is
    foreground when it is above the smoothed image at its position minus
    the offset. *)
Definition threshold_rows (F : Filters) (maxValue : Z)
    (method : adaptive_method) (type : thresh_type) (blockSize C : Z)
    (rows : list (list Z)) : list (list Z) :=
  imap (fun y row =>
    imap (fun x s =>
      threshold_pixel type maxValue C s
        (local_mean F method blockSize rows y x)) row) rows.

(** Modelled from the spec: [cv2.adaptiveThreshold(src, maxValue, method,
    type, blockSize, C)], the adaptive thresholding of step 2.  The source
    must be 8-bit single-channel and the block size odd and above one; a
    negative [maxValue] gives the zero image. *)
Definition adaptiveThreshold (F : Filters) (src : ndarray) (maxValue : Z)
    (method : adaptive_method) (type : thresh_type) (blockSize C : Z)
  : Result ndarray :=
  match src with
  | Arr3 _ => Raise "adaptiveThreshold: src.type() == CV_8UC1"
  | Arr2 rows =>
      if (blockSize mod 2 =? 1) && (1 <? blockSize) then
        if maxValue <? 0 then Ok (Arr2 (map (map (fun _ => 0)) rows))
        else Ok (Arr2 (threshold_rows F maxValue method type blockSize C rows))
      else Raise "adaptiveThreshold: blockSize % 2 == 1 && blockSize > 1"
  end.

(** Offsets, relative to the anchor (the kernel centre), of the non-zero
    elements of a structuring element. *)
Definition kernel_offsets (kernel : list (list Z)) : list (Z * Z) :=
  let ay := Z.of_nat (length kernel) / 2 in
  let ax := Z.of_nat (length (hd [] kernel)) / 2 in
  concat (imap (fun ky row =>
            omap id (imap (fun kx k =>
              if k =? 0 then None
              else Some (Z.of_nat ky - ay, Z.of_nat kx - ax)) row)) kernel).

Definition pixel_at {P : Type} (rows : list (list P)) (y x : Z) : option P :=
  if (0 <=? y) && (0 <=? x)
  then row ← rows !! Z.to_nat y; row !! Z.to_nat x
  else None.

(** Modelled from the spec: one pass of the morphological operations of
    step 3.  Every pixel becomes the [combine] of the pixels under the
    structuring element; pixels outside the image do not take part (the
    default border of [cv2.erode] and [cv2.dilate]). *)
Definition morph_pass {P : Type} (combine : P -> P -> P) (neutral : P -> P)
    (kernel : list (list Z)) (rows : list (list P)) : list (list P) :=
  imap (fun y row =>
    imap (fun x p =>
      foldr combine (neutral p)
        (omap (fun d => pixel_at rows (Z.of_nat y + d.1) (Z.of_nat x + d.2))
              (kernel_offsets kernel))) row) rows.

(** Modelled from the spec: erosion, the minimum under the structuring
    element, channel by channel. *)
Definition erode (kernel : list (list Z)) (img : ndarray) : ndarray :=
  match img with
  | Arr2 rows => Arr2 (morph_pass Z.min (fun _ => 255) kernel rows)
  | Arr3 rows =>
      Arr3 (morph_pass (zip_with Z.min) (map (fun _ => 255)) kernel rows)
  end.

(** Modelled from the spec: dilation, the maximum under the structuring
    element, channel by channel. *)
Definition dilate (kernel : list (list Z)) (img : ndarray) : ndarray :=
  match img with
  | Arr2 rows => Arr2 (morph_pass Z.max (fun _ => 0) kernel rows)
  | Arr3 rows =>
      Arr3 (morph_pass (zip_with Z.max) (map (fun _ => 0)) kernel rows)
  end.

(** Modelled from the spec: [cv2.morphologyEx(src, op, kernel)]; the
    opening of step 3 is "erosion followed by dilation". *)
Definition morphologyEx (src : ndarray) (op : morph_op)
    (kernel : list (list Z)) : Result ndarray :=
  match op with
  | MORPH_ERODE => Ok (erode kernel src)
  | MORPH_DILATE => Ok (dilate kernel src)
  | MORPH_OPEN => Ok (dilate kernel (erode kernel src))
  | MORPH_CLOSE => Ok (erode kernel (dilate kernel src))
  end.

(** ** Effects *)

(** A call to a collaborator.  The trace of a run is the list of its
    events in the order of the calls. *)
Inductive event :=
| EPrint (line : string)
| ECvtColor (src : ndarray) (code : color_code)
| EAdaptiveThreshold (src : ndarray)
| EMorphologyEx (src : ndarray) (op : morph_op) (kernel : list (list Z))
| EImread (path : string)
| EImwrite (path : string) (img : ndarray)
| EImageToString (img : ndarray)
| EMakedirs (path : string)
| EConvertFromPath (pdf_path : string)
| EPilSave (path : string) (image : PIL_Image)
| EOpenW (path : string)
| EWrite (path : string) (data : string).

Definition World := list event.

(** The collaborators whose calls can fail.  Each outcome may depend on
    everything that happened before the call.  [cv2.imread] returns [None]
    when the decoder gives no buffer, and the boolean of [cv2.imwrite] is
    the one the source discards.  [fs_open] and [fs_write] are
    [open(path, 'w', encoding='utf-8')] and [f.write(data)] on the handle
    opened on [path]: the source calls them outside every [try], so that
    their exceptions leave [main].  [print] alone only extends the
    trace. *)
Record Env := {
  filters : Filters;
  cv2_imread : World -> string -> Result (option ndarray);
  cv2_imwrite : World -> string -> ndarray -> Result bool;
  image_to_string : World -> ndarray -> Result string;
  convert_from_path : World -> string -> Result (list PIL_Image);
  pil_save : World -> PIL_Image -> string -> Result unit;
  os_makedirs : World -> string -> Result unit;
  fs_open : World -> string -> Result unit;
  fs_write : World -> string -> string -> Result unit
}.

(** A computation reads the history and yields a result or an exception,
    together with the events it adds. *)
Definition M (A : Type) : Type := World -> Result A * list event.

Definition ret {A : Type} (a : A) : M A := fun _ => (Ok a, []).

Definition bind {A B : Type} (m : M A) (f : A -> M B) : M B := fun w =>
  match m w with
  | (Ok a, evs) => let '(r, evs') := f a (w ++ evs) in (r, evs ++ evs')
  | (Raise e, evs) => (Raise e, evs)
  end.

(** [try: body except Exception as e: handler e]. *)
Definition try_except {A : Type} (body : M A) (handler : Exn -> M A) : M A :=
  fun w =>
  match body w with
  | (Ok a, evs) => (Ok a, evs)
  | (Raise e, evs) => let '(r, evs') := handler e (w ++ evs) in (r, evs ++ evs')
  end.

Definition call {A : Type} (ev : event) (outcome : World -> Result A) : M A :=
  fun w => (outcome w, [ev]).

Notation "'let!' x ':=' m 'in' k" := (bind m (fun x => k))
  (at level 10, x name, m at level 100, k at level 200).

Definition print (line : string) : M unit :=
  call (EPrint line) (fun _ => Ok tt).


(** ** Strings and paths *)

(** Truthiness of a [str]. *)
Definition str_truthy (s : string) : bool :=
  match s with
  | EmptyString => false
  | String _ _ => true
  end.

Fixpoint rfind_from (c : ascii) (s : string) (i last : Z) : Z :=
  match s with
  | EmptyString => last
  | String a s' => rfind_from c s' (i + 1) (if Ascii.eqb a c then i else last)
  end.

(** [s.rfind(c)]: the last index of [c], or -1. *)
Definition rfind (c : ascii) (s : string) : Z := rfind_from c s 0 (-1).

(** [s[:k]] and [s[k:]] for [0 <= k]. *)
Fixpoint str_take (k : nat) (s : string) : string :=
  match k, s with
  | S k', String a s' => String a (str_take k' s')
  | _, _ => EmptyString
  end.

Fixpoint str_drop (k : nat) (s : string) : string :=
  match k, s with
  | S k', String _ s' => str_drop k' s'
  | _, _ => s
  end.

Definition char_at (s : string) (i : Z) : option ascii :=
  if i <? 0 then None else String.get (Z.to_nat i) s.

(** The loop of [genericpath._splitext] that skips the leading dots of the
    file name: [true] when a character other than a dot comes before
    [dotIndex]. *)
Fixpoint splitext_scan (p : string) (filenameIndex dotIndex : Z) (fuel : nat)
  : bool :=
  match fuel with
  | O => false
  | S fuel' =>
      if filenameIndex <? dotIndex then
        match char_at p filenameIndex with
        | Some "."%char => splitext_scan p (filenameIndex + 1) dotIndex fuel'
        | _ => true
        end
      else false
  end.

(** [os.path.splitext(p)] (posixpath). *)
Definition splitext (p : string) : string * string :=
  let sepIndex := rfind "/" p in
  let dotIndex := rfind "." p in
  if sepIndex <? dotIndex then
    let filenameIndex := sepIndex + 1 in
    if splitext_scan p filenameIndex dotIndex (Z.to_nat (dotIndex - filenameIndex))
    then (str_take (Z.to_nat dotIndex) p, str_drop (Z.to_nat dotIndex) p)
    else (p, "")
  else (p, "").

(** [os.path.basename(p)] (posixpath). *)
Definition basename (p : string) : string :=
  str_drop (Z.to_nat (rfind "/" p + 1)) p.

Definition lower_char (a : ascii) : ascii :=
  let n := nat_of_ascii a in
  if ((65 <=? n) && (n <=? 90))%nat then ascii_of_nat (n + 32) else a.

(** [s.lower()] on the ASCII letters; the other bytes of the path are
    kept, and no character outside ASCII lowers to a letter of one of the
    supported extensions. *)
Fixpoint lower (s : string) : string :=
  match s with
  | EmptyString => EmptyString
  | String a s' => String (lower_char a) (lower s')
  end.

Definition startswith (s : string) (c : ascii) : bool :=
  match s with
  | String a _ => Ascii.eqb a c
  | EmptyString => false
  end.

Fixpoint endswith (s : string) (c : ascii) : bool :=
  match s with
  | EmptyString => false
  | String a EmptyString => Ascii.eqb a c
  | String _ s' => endswith s' c
  end.

(** [os.path.join(a, b)] (posixpath). *)
Definition path_join (a b : string) : string :=
  if startswith b "/" then b
  else if negb (str_truthy a) || endswith a "/" then a +:+ b
  else a +:+ "/" +:+ b.

(** ** The program *)

Record Args := {
  input : string;
  output : string;
  pages : bool;
  pages_dir : string
}.

Definition page_separator (page_num : nat) : string :=
  String "010" (String "010" ("===== PAGE " +:+ pretty page_num +:+ " ====="
    +:+ String "010" (String "010" ""))).

Definition image_extensions : list string :=
  [".jpg"; ".jpeg"; ".png"; ".tiff"; ".bmp"].

(** [os.path.splitext(input_path)[1].lower()]. *)
Definition file_ext_of (input_path : string) : string :=
  lower (splitext input_path).2.

Section Program.
Context (env : Env).

Definition cv2_cvtColor (src : ndarray) (code : color_code) : M ndarray :=
  call (ECvtColor src code) (fun _ => cvtColor (filters env) src code).

Definition cv2_adaptiveThreshold (src : ndarray) (maxValue : Z)
    (method : adaptive_method) (type : thresh_type) (blockSize C : Z)
  : M ndarray :=
  call (EAdaptiveThreshold src)
       (fun _ => adaptiveThreshold (filters env) src maxValue method type
                   blockSize C).

Definition cv2_morphologyEx (src : ndarray) (op : morph_op)
    (kernel : list (list Z)) : M ndarray :=
  call (EMorphologyEx src op kernel) (fun _ => morphologyEx src op kernel).

Definition imread (path : string) : M (option ndarray) :=
  call (EImread path) (fun w => cv2_imread env w path).

Definition imwrite (path : string) (img : ndarray) : M bool :=
  call (EImwrite path img) (fun w => cv2_imwrite env w path img).

Definition pytesseract_image_to_string (img : ndarray) : M string :=
  call (EImageToString img) (fun w => image_to_string env w img).

Definition makedirs (path : string) : M unit :=
  call (EMakedirs path) (fun w => os_makedirs env w path).

Definition pdf2image_convert_from_path (pdf_path : string)
  : M (list PIL_Image) :=
  call (EConvertFromPath pdf_path) (fun w => convert_from_path env w pdf_path).

Definition image_save (image : PIL_Image) (path : string) : M unit :=
  call (EPilSave path image) (fun w => pil_save env w image path).

(** [open(path, 'w', encoding='utf-8')]: creates or truncates [path], or
    raises. *)
Definition open_w (path : string) : M unit :=
  call (EOpenW path) (fun w => fs_open env w path).

(** [f.write(data)] on the handle opened on [path]. *)
Definition f_write (path data : string) : M unit :=
  call (EWrite path data) (fun w => fs_write env w path data).

(** The grayscale step of [preprocess_image] (lines 21-25). *)
Definition to_gray (img : ndarray) : M ndarray :=
  if (length (shape img) =? 3)%nat
  then cv2_cvtColor img COLOR_BGR2GRAY
  else ret img.

Definition preprocess_image (img : ndarray) : M ndarray :=
  let! gray := to_gray img in
  let! thresh := cv2_adaptiveThreshold gray 255 ADAPTIVE_THRESH_GAUSSIAN_C
                   THRESH_BINARY 11 2 in
  let kernel := np_ones 1 1 in
  let! opening := cv2_morphologyEx thresh MORPH_OPEN kernel in
  ret opening.

(** The body of the [try] block of [process_image_file]. *)
Definition image_try_body (image_path : string) : M (option string) :=
  let! img := imread image_path in
  match img with
  | None =>
      let! _ := print ("Failed to load image: " +:+ image_path) in
      ret None
  | Some img =>
      let! preprocessed := preprocess_image img in
      let! _ := imwrite ("preprocessed_" +:+ basename image_path)
                  preprocessed in
      let! text := pytesseract_image_to_string preprocessed in
      ret (Some text)
  end.

Definition process_image_file (image_path : string) : M (option string) :=
  try_except (image_try_body image_path)
    (fun e =>
       let! _ := print ("Error processing image " +:+ image_path +:+ ": "
                        +:+ e) in
       ret None).

(** The part of a page's processing that saves the two artifacts
    (lines 104-112). *)
Definition save_page_artifacts (output_folder : option string)
    (page_num : nat) (image : PIL_Image) (preprocessed : ndarray) : M unit :=
  match output_folder with
  | Some folder =>
      if str_truthy folder then
        let page_filename := "page_" +:+ pretty page_num +:+ ".jpg" in
        let preprocessed_filename :=
          "preprocessed_page_" +:+ pretty page_num +:+ ".jpg" in
        let! _ := image_save image (path_join folder page_filename) in
        let! _ := imwrite (path_join folder preprocessed_filename)
                    preprocessed in
        ret tt
      else ret tt
  | None => ret tt
  end.

(** One turn of the loop [for i, image in enumerate(images)] (lines
    94-120): the dictionary that the turn appends to [results]. *)
Definition pdf_page_body (output_folder : option string) (n : nat)
    (i : nat) (image : PIL_Image) : M page_result :=
  let page_num := (i + 1)%nat in
  let! _ := print ("Processing page " +:+ pretty page_num +:+ "/"
                   +:+ pretty n) in
  let img_array := np_array image in
  let! preprocessed := preprocess_image img_array in
  let! _ := save_page_artifacts output_folder page_num image
              preprocessed in
  let! text := pytesseract_image_to_string preprocessed in
  ret {| page := page_num; text := text |}.

(** The loop from index [i] on, with [results] the list appended to so
    far and [n = len(images)]. *)
Fixpoint pdf_page_loop (output_folder : option string) (n : nat)
    (images : list PIL_Image) (i : nat) (results : list page_result)
  : M (list page_result) :=
  match images with
  | [] => ret results
  | image :: rest =>
      let! page_result := pdf_page_body output_folder n i image in
      pdf_page_loop output_folder n rest (S i) (results ++ [page_result])
  end.

(** Lines 85-91: the folder, the banner and the rasterization. *)
Definition pdf_rasterize (pdf_path : string) (output_folder : option string)
  : M (list PIL_Image) :=
  let! _ := match output_folder with
            | Some folder =>
                if str_truthy folder then makedirs folder else ret tt
            | None => ret tt
            end in
  let! _ := print ("Converting PDF to images: " +:+ pdf_path) in
  pdf2image_convert_from_path pdf_path.

Definition pdf_try_body (pdf_path : string) (output_folder : option string)
    (results : list page_result) : M (list page_result) :=
  let! images := pdf_rasterize pdf_path output_folder in
  pdf_page_loop output_folder (length images) images 0 results.

Definition process_pdf_file (pdf_path : string)
    (output_folder : option string) : M (list page_result) :=
  let results := [] in
  try_except (pdf_try_body pdf_path output_folder results)
    (fun e =>
       let! _ := print ("Error processing PDF " +:+ pdf_path +:+ ": "
                        +:+ e) in
       ret []).

(** Lines 146-148: the separator and the text of every page result. *)
Fixpoint write_pages (out : string) (results : list page_result) : M unit :=
  match results with
  | [] => ret tt
  | page_result :: rest =>
      let! _ := f_write out (page_separator (page page_result)) in
      let! _ := f_write out (text page_result) in
      write_pages out rest
  end.

Definition main_pdf (args : Args) : M unit :=
  let! results := process_pdf_file (input args)
                    (if pages args then Some (pages_dir args) else None) in
  let! _ := open_w (output args) in
  let! _ := write_pages (output args) results in
  print ("Extracted text from " +:+ pretty (length results)
         +:+ " pages saved to " +:+ output args).

(** Lines 155-160: what [main] does with the value of
    [process_image_file]. *)
Definition main_image_tail (args : Args) (text : option string) : M unit :=
  match text with
  | Some text =>
      if str_truthy text then
        let! _ := open_w (output args) in
        let! _ := f_write (output args) text in
        print ("Extracted text saved to " +:+ output args)
      else ret tt
  | None => ret tt
  end.

Definition main_image (args : Args) : M unit :=
  let! text := process_image_file (input args) in
  main_image_tail args text.

Definition main_unsupported (file_ext : string) : M unit :=
  let! _ := print ("Unsupported file format: " +:+ file_ext) in
  print "Supported formats: PDF, JPG, JPEG, PNG, TIFF, BMP".

Definition main (args : Args) : M unit :=
  let input_path := input args in
  let file_ext := file_ext_of input_path in
  if String.eqb file_ext ".pdf" then main_pdf args
  else if existsb (String.eqb file_ext) image_extensions then main_image args
  else main_unsupported file_ext.

End Program.

(** ** Observations on results and traces *)

Definition succeeds {A : Type} (r : Result A) : bool :=
  match r with
  | Ok _ => true
  | Raise _ => false
  end.

(** Every pixel is 0 or 255. *)
Definition binary_rows (rows : list (list Z)) : Prop :=
  Forall (Forall (fun v => v = 0 \/ v = 255)) rows.

(** Every pixel is an 8-bit value. *)
Definition u8_rows (rows : list (list Z)) : Prop :=
  Forall (Forall (fun v => 0 <= v <= 255)) rows.

(** Number of channels of an image: a two-dimensional array has one, a
    three-dimensional one has [shape[2]]. *)
Definition num_channels (img : ndarray) : nat :=
  match shape img with
  | [_; _; c] => c
  | _ => 1
  end.

(** The inputs of the preprocessor in the program: a two-dimensional
    single-channel image, or a three-dimensional image whose pixels all have
    three channels. *)
Definition single_or_three_channel (img : ndarray) : bool :=
  match img with
  | Arr2 _ => true
  | Arr3 rows => forallb (forallb (fun px => (length px =? 3)%nat)) rows
  end.

(** Heights and widths, row by row. *)
Definition row_lengths {A : Type} (rows : list (list A)) : list nat :=
  map length rows.

Definition is_cvtColor (e : event) : bool :=
  match e with
  | ECvtColor _ _ => true
  | _ => false
  end.

Definition is_morphologyEx (e : event) : bool :=
  match e with
  | EMorphologyEx _ _ _ => true
  | _ => false
  end.

Definition is_ocr (e : event) : bool :=
  match e with
  | EImageToString _ => true
  | _ => false
  end.

(** The event opens or writes a text file. *)
Definition is_text_io (e : event) : bool :=
  match e with
  | EOpenW _ | EWrite _ _ => true
  | _ => false
  end.

Definition is_makedirs (e : event) : bool :=
  match e with
  | EMakedirs _ => true
  | _ => false
  end.

(** The events of a run of [process_image_file] on [image_path]: calls of
    the image pipeline, the write of the side image
    [preprocessed_<basename>] and one of the two failure messages. *)
Definition image_file_event (image_path : string) (e : event) : bool :=
  match e with
  | ECvtColor _ _ | EAdaptiveThreshold _ | EMorphologyEx _ _ _
  | EImread _ | EImageToString _ => true
  | EImwrite p _ => String.eqb p ("preprocessed_" +:+ basename image_path)
  | EPrint line =>
      String.prefix "Failed to load image: " line
      || String.prefix "Error processing image " line
  | _ => false
  end.

(** The events of a run of [process_pdf_file] that was given no folder, or
    an empty one. *)
Definition pdf_event_without_folder (e : event) : bool :=
  match e with
  | ECvtColor _ _ | EAdaptiveThreshold _ | EMorphologyEx _ _ _
  | EImageToString _ | EConvertFromPath _ | EPrint _ => true
  | _ => false
  end.

(** The path of an image file that the event writes. *)
Definition artifact_path (e : event) : option string :=
  match e with
  | EPilSave p _ | EImwrite p _ => Some p
  | _ => None
  end.

Definition artifact_paths (evs : list event) : list string :=
  omap artifact_path evs.

(** What the events of a trace do to the text file [out]: [None] while no
    event has opened it, otherwise the text written since it was last
    opened. *)
Definition written_step (out : string) (st : option string) (e : event)
  : option string :=
  match e with
  | EOpenW p => if String.eqb p out then Some "" else st
  | EWrite p data =>
      if String.eqb p out then (fun c => c +:+ data) <$> st else st
  | _ => st
  end.

Definition written_text (out : string) (evs : list event) : option string :=
  foldl (written_step out) None evs.

(** The two write events of one page result, and the text they make. *)
Definition page_writes (out : string) (r : page_result) : list event :=
  [EWrite out (page_separator (page r)); EWrite out (text r)].

Fixpoint pages_text (results : list page_result) : string :=
  match results with
  | [] => ""
  | r :: rest => page_separator (page r) +:+ text r +:+ pages_text rest
  end.

(** The two artifact files of page [n] in [folder]. *)
Definition page_artifacts (folder : string) (n : nat) : list string :=
  [path_join folder ("page_" +:+ pretty n +:+ ".jpg");
   path_join folder ("preprocessed_page_" +:+ pretty n +:+ ".jpg")].

(** The artifact files of page [n] for the folder argument of
    [process_pdf_file]: none without a folder or with an empty one. *)
Definition expected_artifacts (output_folder : option string) (n : nat)
  : list string :=
  match output_folder with
  | Some folder => if str_truthy folder then page_artifacts folder n else []
  | None => []
  end.

(** The message of the handler of [process_pdf_file]. *)
Definition pdf_error_message (pdf_path : string) (e : Exn) : string :=
  "Error processing PDF " +:+ pdf_path +:+ ": " +:+ e.

Definition success_message (args : Args) : string :=
  "Extracted text saved to " +:+ output args.

Definition pdf_summary (args : Args) (n : nat) : string :=
  "Extracted text from " +:+ pretty n +:+ " pages saved to " +:+ output args.

(** The folder that [main] hands to [process_pdf_file]. *)
Definition pdf_folder (args : Args) : option string :=
  if pages args then Some (pages_dir args) else None.

(** The pipeline of section 4.1 of the specification with the opening step
    left out: grayscale conversion followed by adaptive thresholding. *)
Definition preprocess_no_opening (env : Env) (img : ndarray) : M ndarray :=
  let! gray := to_gray env img in
  cv2_adaptiveThreshold env gray 255 ADAPTIVE_THRESH_GAUSSIAN_C
    THRESH_BINARY 11 2.

(** ** Sample environments and inputs *)

(** Luma weights of the 14-bit fixed-point conversion and a constant local
    mean. *)
Definition sample_filters : Filters := {|
  luma := fun b g r => (b * 1868 + g * 9617 + r * 4899 + 8192) / 16384;
  local_mean := fun _ _ _ _ _ => 128
|}.

(** An environment whose decoder gives [loaded], whose rasterizer gives
    [pdf_pages] and whose recognition engine behaves as [ocr]; every write
    succeeds. *)
Definition sample_env (loaded : option ndarray) (pdf_pages : list PIL_Image)
    (ocr : World -> ndarray -> Result string) : Env := {|
  filters := sample_filters;
  cv2_imread := fun _ _ => Ok loaded;
  cv2_imwrite := fun _ _ _ => Ok true;
  image_to_string := ocr;
  convert_from_path := fun _ _ => Ok pdf_pages;
  pil_save := fun _ _ _ => Ok tt;
  os_makedirs := fun _ _ => Ok tt;
  fs_open := fun _ _ => Ok tt;
  fs_write := fun _ _ _ => Ok tt
|}.

(** The thresholded image of the preprocessor for a gray image [rows]. *)
Definition preprocess_threshold (F : Filters) (rows : list (list Z))
  : list (list Z) :=
  threshold_rows F 255 ADAPTIVE_THRESH_GAUSSIAN_C THRESH_BINARY 11 2 rows.

Definition bgr_image : ndarray :=
  Arr3 [[[10; 20; 30]; [200; 210; 220]]; [[0; 0; 0]; [255; 255; 255]]].

Definition gray_image : ndarray := Arr2 [[12; 130]; [127; 250]].

(** A one-pixel BGRA image, shape [(1, 1, 4)]. *)
Definition bgra_pixel : ndarray := Arr3 [[[10; 20; 30; 255]]].

(** A one-pixel image with an explicit channel axis, shape [(1, 1, 1)]. *)
Definition one_channel_pixel : ndarray := Arr3 [[[7]]].

Definition two_pages : list PIL_Image :=
  [{| pil_pixels := bgr_image |}; {| pil_pixels := gray_image |}].

Definition ocr_hello : World -> ndarray -> Result string :=
  fun _ _ => Ok "hello".


Definition ocr_raises : World -> ndarray -> Result string :=
  fun _ _ => Raise "tesseract is not installed or it's not in your PATH".

(** The engine fails from its second call on. *)
Definition ocr_fails_second : World -> ndarray -> Result string :=
  fun w _ =>
    if existsb is_ocr w then Raise "tesseract failed" else Ok "first".

Definition pdf_args (keep_pages : bool) (dir : string) : Args := {|
  input := "scan.PDF";
  output := "out.txt";
  pages := keep_pages;
  pages_dir := dir
|}.

Definition image_args : Args := {|
  input := "photos/receipt.png";
  output := "out.txt";
  pages := false;
  pages_dir := "extracted_pages"
|}.

Definition text_args : Args := {|
  input := "notes.txt";
  output := "out.txt";
  pages := false;
  pages_dir := "extracted_pages"
|}.

(** ** Further observations and samples *)

Definition printed_line (e : event) : option string :=
  match e with
  | EPrint line => Some line
  | _ => None
  end.

(** The lines that a trace prints, in order. *)
Definition printed (evs : list event) : list string := omap printed_line evs.

Definition ocr_input (e : event) : option ndarray :=
  match e with
  | EImageToString img => Some img
  | _ => None
  end.

(** The images handed to the recognition engine, in order. *)
Definition ocr_inputs (evs : list event) : list ndarray := omap ocr_input evs.

(** The events of a run of [process_pdf_file], with or without a folder. *)
Definition pdf_file_event (e : event) : bool :=
  match e with
  | EImread _ | EOpenW _ | EWrite _ _ => false
  | _ => true
  end.

(** The image that [preprocess_image] returns when it returns one. *)
Definition preprocessed_image (F : Filters) (img : ndarray) : ndarray :=
  match img with
  | Arr2 rows => Arr2 (preprocess_threshold F rows)
  | Arr3 rows =>
      Arr2 (preprocess_threshold F
              (map (map (gray_of_pixel F COLOR_BGR2GRAY)) rows))
  end.

(** The calls of [preprocess_image] when it returns an image. *)
Definition preprocess_calls (F : Filters) (img : ndarray) : list event :=
  match img with
  | Arr2 rows =>
      [EAdaptiveThreshold img;
       EMorphologyEx (preprocessed_image F img) MORPH_OPEN (np_ones 1 1)]
  | Arr3 rows =>
      [ECvtColor img COLOR_BGR2GRAY;
       EAdaptiveThreshold
         (Arr2 (map (map (gray_of_pixel F COLOR_BGR2GRAY)) rows));
       EMorphologyEx (preprocessed_image F img) MORPH_OPEN (np_ones 1 1)]
  end.

Definition progress_line (page_num n : nat) : string :=
  "Processing page " +:+ pretty page_num +:+ "/" +:+ pretty n.

Definition converting_line (pdf_path : string) : string :=
  "Converting PDF to images: " +:+ pdf_path.

(** The two saves of page [n], when a non-empty folder was given. *)
Definition save_events (output_folder : option string) (n : nat)
    (image : PIL_Image) (preprocessed : ndarray) : list event :=
  match output_folder with
  | Some folder =>
      if str_truthy folder then
        [EPilSave (path_join folder ("page_" +:+ pretty n +:+ ".jpg")) image;
         EImwrite
           (path_join folder ("preprocessed_page_" +:+ pretty n +:+ ".jpg"))
           preprocessed]
      else []
  | None => []
  end.

(** The events of a turn of the page loop that completes, for the image at
    index [i] of [n]. *)
Definition page_events (F : Filters) (output_folder : option string)
    (n i : nat) (image : PIL_Image) : list event :=
  EPrint (progress_line (i + 1) n)
  :: preprocess_calls F (np_array image)
  ++ save_events output_folder (i + 1) image
       (preprocessed_image F (np_array image))
  ++ [EImageToString (preprocessed_image F (np_array image))].

(** The events of lines 85-91 when they complete. *)
Definition rasterize_events (pdf_path : string)
    (output_folder : option string) : list event :=
  match output_folder with
  | Some folder => if str_truthy folder then [EMakedirs folder] else []
  | None => []
  end
  ++ [EPrint (converting_line pdf_path); EConvertFromPath pdf_path].

(** The events of the page loop when it completes, from index [i] on. *)
Fixpoint loop_events (F : Filters) (output_folder : option string) (n : nat)
    (images : list PIL_Image) (i : nat) : list event :=
  match images with
  | [] => []
  | image :: rest =>
      page_events F output_folder n i image
      ++ loop_events F output_folder n rest (S i)
  end.

(** The page results for an engine that is a function [f] of the image. *)
Fixpoint page_results (f : ndarray -> string) (F : Filters)
    (images : list PIL_Image) (i : nat) : list page_result :=
  match images with
  | [] => []
  | image :: rest =>
      {| page := i + 1;
         text := f (preprocessed_image F (np_array image)) |}
      :: page_results f F rest (S i)
  end.

Fixpoint has_char (c : ascii) (s : string) : bool :=
  match s with
  | EmptyString => false
  | String a s' => Ascii.eqb a c || has_char c s'
  end.

(** An environment whose rasterizer fails. *)
Definition raster_fails_env : Env := {|
  filters := sample_filters;
  cv2_imread := fun _ _ => Ok None;
  cv2_imwrite := fun _ _ _ => Ok true;
  image_to_string := ocr_hello;
  convert_from_path := fun _ _ => Raise "Unable to get page count.";
  pil_save := fun _ _ _ => Ok tt;
  os_makedirs := fun _ _ => Ok tt;
  fs_open := fun _ _ => Ok tt;
  fs_write := fun _ _ _ => Ok tt
|}.

(** An environment in which the folder cannot be created. *)
Definition makedirs_fails_env : Env := {|
  filters := sample_filters;
  cv2_imread := fun _ _ => Ok None;
  cv2_imwrite := fun _ _ _ => Ok true;
  image_to_string := ocr_hello;
  convert_from_path := fun _ _ => Ok two_pages;
  pil_save := fun _ _ _ => Ok tt;
  os_makedirs := fun _ _ => Raise "[Errno 13] Permission denied";
  fs_open := fun _ _ => Ok tt;
  fs_write := fun _ _ _ => Ok tt
|}.

(** An environment whose [cv2.imwrite] returns [False] without raising. *)
Definition imwrite_false_env : Env := {|
  filters := sample_filters;
  cv2_imread := fun _ _ => Ok (Some bgr_image);
  cv2_imwrite := fun _ _ _ => Ok false;
  image_to_string := ocr_hello;
  convert_from_path := fun _ _ => Ok two_pages;
  pil_save := fun _ _ _ => Ok tt;
  os_makedirs := fun _ _ => Ok tt;
  fs_open := fun _ _ => Ok tt;
  fs_write := fun _ _ _ => Ok tt
|}.

(** The engine fails at every page, the saves succeed. *)
Definition ocr_fails_env : Env := sample_env None two_pages ocr_raises.

(** ** What a run leaves on disk *)

(** The content of a file as far as the program makes it: the text written
    through a handle, or an image. *)
Inductive file_content :=
| TextFile (data : string)
| ImageFile.

(** What the event [e], issued after the history [w], does to the file at
    [path], given what the run has made of it so far ([None]: nothing yet).
    A call changes the file only when it succeeds: [open] that returns,
    [f.write] that returns, [image.save] that returns, [cv2.imwrite] that
    returns [True]. *)
Definition file_step (env : Env) (path : string) (w : World)
    (st : option file_content) (e : event) : option file_content :=
  match e with
  | EOpenW p =>
      if String.eqb p path && succeeds (fs_open env w p)
      then Some (TextFile "") else st
  | EWrite p data =>
      if String.eqb p path && succeeds (fs_write env w p data)
      then match st with
           | Some (TextFile c) => Some (TextFile (c +:+ data))
           | _ => st
           end
      else st
  | EImwrite p img =>
      match cv2_imwrite env w p img with
      | Ok true => if String.eqb p path then Some ImageFile else st
      | _ => st
      end
  | EPilSave p image =>
      if String.eqb p path && succeeds (pil_save env w image p)
      then Some ImageFile else st
  | _ => st
  end.

(** The file at [path] after the events [evs] issued from the history [w]
    on. *)
Fixpoint file_after (env : Env) (path : string) (w : World)
    (st : option file_content) (evs : list event) : option file_content :=
  match evs with
  | [] => st
  | e :: rest => file_after env path (w ++ [e]) (file_step env path w st e) rest
  end.


(** The events of what [main] does after a processor has returned: the
    open, the writes and the closing message. *)
Definition output_event (e : event) : bool :=
  match e with
  | EOpenW _ | EWrite _ _ | EPrint _ => true
  | _ => false
  end.

(** An image write and whether it reported success. *)
Definition artifact_outcome (env : Env) (w : World) (e : event)
  : option (string * bool) :=
  match e with
  | EPilSave p image => Some (p, succeeds (pil_save env w image p))
  | EImwrite p img =>
      Some (p, match cv2_imwrite env w p img with
               | Ok true => true
               | _ => false
               end)
  | _ => None
  end.

Fixpoint artifact_outcomes (env : Env) (w : World) (evs : list event)
  : list (string * bool) :=
  match evs with
  | [] => []
  | e :: rest =>
      match artifact_outcome env w e with
      | Some o => [o]
      | None => []
      end ++ artifact_outcomes env (w ++ [e]) rest
  end.

(** The image files that a run has written: the writes that reported
    success, in order. *)
Definition written_artifacts (env : Env) (w : World) (evs : list event)
  : list string :=
  omap (fun o : string * bool => if o.2 then Some o.1 else None)
    (artifact_outcomes env w evs).

(** ** Separator lines of a text *)

Definition LF : ascii := "010".

(** [s.split("\n")]. *)
Fixpoint split_lines (s : string) : list string :=
  match s with
  | EmptyString => [EmptyString]
  | String c s' =>
      if Ascii.eqb c LF then EmptyString :: split_lines s'
      else match split_lines s' with
           | l :: ls => String c l :: ls
           | [] => [String c EmptyString]
           end
  end.

Definition is_digit (c : ascii) : bool :=
  let n := nat_of_ascii c in ((48 <=? n) && (n <=? 57))%nat.

Fixpoint all_digits (s : string) : bool :=
  match s with
  | EmptyString => true
  | String c s' => is_digit c && all_digits s'
  end.

(** A non-empty string of decimal digits. *)
Definition is_number (s : string) : bool := str_truthy s && all_digits s.

(** The line is [===== PAGE <digits> =====]. *)
Definition is_separator_line (l : string) : bool :=
  String.prefix "===== PAGE " l &&
  (let rest := str_drop 11 l in
   let k := (String.length rest - 6)%nat in
   (6 <=? String.length rest)%nat
   && String.eqb (str_drop k rest) " ====="
   && is_number (str_take k rest)).

Definition count_separator_lines (s : string) : nat :=
  length (filter (fun l => is_separator_line l) (split_lines s)).

(** The separator lines that the recognised texts themselves contain. *)
Fixpoint texts_separator_lines (results : list page_result) : nat :=
  match results with
  | [] => 0
  | r :: rest =>
      (count_separator_lines (text r) + texts_separator_lines rest)%nat
  end.

(** An environment in which the output file cannot be opened. *)
Definition unwritable_output_env : Env := {|
  filters := sample_filters;
  cv2_imread := fun _ _ => Ok (Some bgr_image);
  cv2_imwrite := fun _ _ _ => Ok true;
  image_to_string := ocr_hello;
  convert_from_path := fun _ _ => Ok two_pages;
  pil_save := fun _ _ _ => Ok tt;
  os_makedirs := fun _ _ => Ok tt;
  fs_open := fun _ p =>
    Raise ("[Errno 2] No such file or directory: '" +:+ p +:+ "'");
  fs_write := fun _ _ _ => Ok tt
|}.

(** A one-page document. *)
Definition one_page : list PIL_Image := [{| pil_pixels := gray_image |}].

(** A page whose text holds a line that looks like a separator. *)
Definition ocr_separator_text : World -> ndarray -> Result string :=
  fun _ _ =>
    Ok ("see" +:+ String LF ("===== PAGE 2 =====" +:+ String LF "below")).

(** ** Running computations *)

Lemma bind_ok {A B : Type} (m : M A) (f : A -> M B) (w : World) a evs :
  m w = (Ok a, evs) ->
  bind m f w = ((f a (w ++ evs)).1, evs ++ (f a (w ++ evs)).2).
Proof. intros H. unfold bind. rewrite H. by destruct (f a (w ++ evs)). Qed.

Lemma try_except_raise {A : Type} (body : M A) handler (w : World) e evs :
  body w = (Raise e, evs) ->
  try_except body handler w
  = ((handler e (w ++ evs)).1, evs ++ (handler e (w ++ evs)).2).
Proof.
  intros H. unfold try_except. rewrite H. by destruct (handler e (w ++ evs)).
Qed.

Lemma pair_eta {A B : Type} (p : A * B) : p = (p.1, p.2).
Proof. by destruct p. Qed.

(** ** The preprocessor *)

Lemma imap_fixed {A : Type} (f : nat -> A -> A) (l : list A) :
  (forall i x, l !! i = Some x -> f i x = x) -> imap f l = l.
Proof.
  intros Hf. apply list_eq. intros i. rewrite list_lookup_imap.
  destruct (l !! i) as [x|] eqn:Hi; simpl; [|done].
  by rewrite (Hf i x Hi).
Qed.

Lemma row_lengths_imap {A B : Type} (g : nat -> nat -> A -> B)
    (rows : list (list A)) :
  row_lengths (imap (fun y row => imap (g y) row) rows) = row_lengths rows.
Proof.
  unfold row_lengths. revert g. induction rows as [|row rows IH]; intros g.
  - done.
  - cbn. rewrite length_imap. f_equal. apply (IH (fun y => g (S y))).
Qed.

Lemma hd_length_of_row_lengths {A B : Type} (a : list (list A))
    (b : list (list B)) :
  row_lengths a = row_lengths b -> length (hd [] a) = length (hd [] b).
Proof. destruct a, b; simpl; intros H; by simplify_eq. Qed.

Lemma pixel_at_lookup {P : Type} (rows : list (list P)) y x row p :
  rows !! y = Some row -> row !! x = Some p ->
  pixel_at rows (Z.of_nat y + 0) (Z.of_nat x + 0) = Some p.
Proof.
  intros Hy Hx. unfold pixel_at. rewrite !Z.add_0_r.
  replace (0 <=? Z.of_nat y) with true by (symmetry; apply Z.leb_le; lia).
  replace (0 <=? Z.of_nat x) with true by (symmetry; apply Z.leb_le; lia).
  simpl. rewrite !Nat2Z.id, Hy. simpl. done.
Qed.

(** A pass with the 1x1 structuring element of ones keeps every pixel that
    absorbs the neutral element. *)
Lemma morph_pass_ones {P : Type} (combine : P -> P -> P) (neutral : P -> P)
    (rows : list (list P)) :
  Forall (Forall (fun p => combine p (neutral p) = p)) rows ->
  morph_pass combine neutral (np_ones 1 1) rows = rows.
Proof.
  intros Hall. unfold morph_pass. apply imap_fixed. intros y row Hy.
  apply imap_fixed. intros x p Hx.
  change (kernel_offsets (np_ones 1 1)) with [(0, 0)].
  cbn [omap list_omap fst snd].
  rewrite (pixel_at_lookup rows y x row p Hy Hx). simpl.
  rewrite Forall_lookup in Hall. specialize (Hall y row Hy).
  rewrite Forall_lookup in Hall. exact (Hall x p Hx).
Qed.

Lemma opening_ones_u8 (rows : list (list Z)) :
  u8_rows rows ->
  morphologyEx (Arr2 rows) MORPH_OPEN (np_ones 1 1) = Ok (Arr2 rows).
Proof.
  intros Hu8. simpl. do 2 f_equal.
  rewrite (morph_pass_ones Z.min), (morph_pass_ones Z.max); [done|..].
  - eapply Forall_impl; [exact Hu8|]. intros row Hrow.
    eapply Forall_impl; [exact Hrow|]. simpl. lia.
  - eapply Forall_impl; [exact Hu8|]. intros row Hrow.
    eapply Forall_impl; [exact Hrow|]. simpl. lia.
Qed.

Lemma binary_rows_u8 (rows : list (list Z)) : binary_rows rows -> u8_rows rows.
Proof.
  intros Hb. eapply Forall_impl; [exact Hb|]. intros row Hrow.
  eapply Forall_impl; [exact Hrow|]. simpl. lia.
Qed.

Lemma preprocess_threshold_binary (F : Filters) (rows : list (list Z)) :
  binary_rows (preprocess_threshold F rows).
Proof.
  unfold binary_rows, preprocess_threshold, threshold_rows.
  apply Forall_lookup. intros y row. rewrite list_lookup_imap.
  destruct (rows !! y) as [r|]; simpl; [|done]. intros [= <-].
  apply Forall_lookup. intros x v. rewrite list_lookup_imap.
  destruct (r !! x) as [s|]; simpl; [|done]. intros [= <-].
  unfold threshold_pixel. case_match; [right|left]; done.
Qed.

Lemma preprocess_threshold_lengths (F : Filters) (rows : list (list Z)) :
  row_lengths (preprocess_threshold F rows) = row_lengths rows.
Proof.
  unfold preprocess_threshold, threshold_rows.
  apply (row_lengths_imap
           (fun y x s =>
              threshold_pixel THRESH_BINARY 255 2 s
                (local_mean F ADAPTIVE_THRESH_GAUSSIAN_C 11 rows y x))).
Qed.

Section Preprocessor.
Context (env : Env).

(** The run of the preprocessor after its grayscale step. *)
Lemma preprocess_image_run (img : ndarray) (w : World) :
  preprocess_image env img w
  = match to_gray env img w with
    | (Ok (Arr2 gray), evs) =>
        (Ok (Arr2 (preprocess_threshold (filters env) gray)),
         evs ++ [EAdaptiveThreshold (Arr2 gray);
                 EMorphologyEx
                   (Arr2 (preprocess_threshold (filters env) gray))
                   MORPH_OPEN (np_ones 1 1)])
    | (Ok (Arr3 rows), evs) =>
        (Raise "adaptiveThreshold: src.type() == CV_8UC1",
         evs ++ [EAdaptiveThreshold (Arr3 rows)])
    | (Raise e, evs) => (Raise e, evs)
    end.
Proof.
  unfold preprocess_image, bind at 1.
  destruct (to_gray env img w) as [[[gray|rows]|e] evs]; [| done..].
  unfold bind, cv2_adaptiveThreshold, cv2_morphologyEx, call, ret.
  cbn [adaptiveThreshold].
  change ((11 mod 2 =? 1) && (1 <? 11)) with true.
  change (255 <? 0) with false. cbv iota.
  fold (preprocess_threshold (filters env) gray).
  rewrite opening_ones_u8
    by apply binary_rows_u8, preprocess_threshold_binary.
  done.
Qed.

Lemma to_gray_run (img : ndarray) (w : World) :
  to_gray env img w
  = match img with
    | Arr2 _ => (Ok img, [])
    | Arr3 _ =>
        (cvtColor (filters env) img COLOR_BGR2GRAY,
         [ECvtColor img COLOR_BGR2GRAY])
    end.
Proof. by destruct img. Qed.

End Preprocessor.

(** C3: on a two-dimensional single-channel image or a three-dimensional
    image with three channels per pixel, [preprocess_image] returns without
    an exception a two-dimensional (single-channel) image whose pixels are
    all 0 or 255 and which has, row by row, the width of the
    grayscale-converted input, hence its height and width and those of the
    input. *)
Theorem preprocess_image_binary_same_size (env : Env) (img : ndarray)
    (w : World) :
  single_or_three_channel img = true ->
  exists gray out,
    (to_gray env img w).1 = Ok (Arr2 gray) /\
    (preprocess_image env img w).1 = Ok (Arr2 out) /\
    binary_rows out /\
    row_lengths out = row_lengths gray /\
    shape (Arr2 out) = shape (Arr2 gray) /\
    shape (Arr2 out) = take 2 (shape img).
Proof.
  intros Hvalid.
  assert (exists gray,
    (to_gray env img w).1 = Ok (Arr2 gray) /\
    shape (Arr2 gray) = take 2 (shape img)) as (gray & Hgray & Hshape).
  { rewrite to_gray_run. destruct img as [rows|rows]; simpl.
    - by exists rows.
    - simpl in Hvalid.
      assert (forallb (forallb color_pixel) rows = true) as ->.
      { rewrite forallb_forall in Hvalid. apply forallb_forall.
        intros row Hrow. specialize (Hvalid row Hrow).
        rewrite forallb_forall in Hvalid. apply forallb_forall.
        intros px Hpx. unfold color_pixel. by rewrite (Hvalid px Hpx). }
      eexists. split; [done|]. simpl. rewrite length_map. f_equal.
      destruct rows; simpl; [done|]. by rewrite length_map. }
  exists gray, (preprocess_threshold (filters env) gray).
  pose proof (preprocess_threshold_lengths (filters env) gray) as Hlen.
  assert (shape (Arr2 (preprocess_threshold (filters env) gray))
          = shape (Arr2 gray)) as Hsame.
  { simpl. f_equal.
    - apply (f_equal length) in Hlen. unfold row_lengths in Hlen.
      by rewrite !length_map in Hlen.
    - f_equal. by apply hd_length_of_row_lengths. }
  split_and!; try done.
  - rewrite preprocess_image_run.
    destruct (to_gray env img w) as [r evs]. simpl in Hgray. by subst r.
  - apply preprocess_threshold_binary.
  - by rewrite Hsame.
Qed.

Lemma preprocess_image_binary_same_size_witness :
  single_or_three_channel bgr_image = true /\
  exists gray out,
    (to_gray (sample_env None [] ocr_hello) bgr_image []).1 = Ok (Arr2 gray) /\
    (preprocess_image (sample_env None [] ocr_hello) bgr_image []).1
    = Ok (Arr2 out) /\
    binary_rows out /\
    row_lengths out = row_lengths gray /\
    shape (Arr2 out) = shape (Arr2 gray) /\
    shape (Arr2 out) = take 2 (shape bgr_image).
Proof.
  split; [reflexivity|].
  apply (preprocess_image_binary_same_size (sample_env None [] ocr_hello)
           bgr_image []).
  reflexivity.
Defined.

(** C4: the opening with the 1x1 structuring element changes nothing:
    for every image and history, [preprocess_image] gives the result (image
    or exception) of the pipeline without the opening step, and its calls
    are those of that pipeline together with the call to
    [cv2.morphologyEx]. *)
Theorem preprocess_image_opening_is_identity (env : Env) (img : ndarray)
    (w : World) :
  (preprocess_image env img w).1 = (preprocess_no_opening env img w).1 /\
  filter (fun e => negb (is_morphologyEx e)) (preprocess_image env img w).2
  = (preprocess_no_opening env img w).2.
Proof.
  rewrite preprocess_image_run. unfold preprocess_no_opening, bind.
  assert (forall evs : list event,
    (to_gray env img w).2 = evs ->
    filter (fun e => negb (is_morphologyEx e)) evs = evs) as Hgray.
  { intros evs <-. rewrite to_gray_run. by destruct img. }
  destruct (to_gray env img w) as [[[gray|rows]|e] evs] eqn:Hrun;
    specialize (Hgray evs eq_refl); simpl.
  - unfold cv2_adaptiveThreshold, call. cbn [adaptiveThreshold].
    change ((11 mod 2 =? 1) && (1 <? 11)) with true.
    change (255 <? 0) with false. cbv iota. simpl.
    split; [done|]. rewrite filter_app, Hgray. done.
  - split; [done|]. rewrite filter_app, Hgray. done.
  - done.
Qed.

(** C5, as the code has it: the grayscale conversion is applied exactly
    when the input array is three-dimensional, whatever its number of
    channels; a two-dimensional input goes unchanged, and without a call to
    the conversion, into the thresholding step. *)
Theorem preprocess_image_converts_three_dimensional (env : Env)
    (img : ndarray) (w : World) :
  existsb is_cvtColor (preprocess_image env img w).2
  = (length (shape img) =? 3)%nat /\
  to_gray env img w
  = (if (length (shape img) =? 3)%nat
     then (cvtColor (filters env) img COLOR_BGR2GRAY,
           [ECvtColor img COLOR_BGR2GRAY])
     else (Ok img, [])) /\
  match img with
  | Arr2 rows =>
      (preprocess_image env img w).2
      = [EAdaptiveThreshold img;
         EMorphologyEx (Arr2 (preprocess_threshold (filters env) rows))
           MORPH_OPEN (np_ones 1 1)]
  | Arr3 _ => In (ECvtColor img COLOR_BGR2GRAY) (preprocess_image env img w).2
  end.
Proof.
  rewrite preprocess_image_run, to_gray_run.
  destruct img as [rows|rows]; simpl; [done|].
  destruct (forallb (forallb color_pixel) rows); simpl; auto.
Qed.

(** C5, the claim as stated fails: a four-channel image is sent to the
    conversion although it does not have three channels, and so is a
    single-channel image with an explicit channel axis; neither is passed
    unchanged into the thresholding step. *)
Lemma preprocess_image_converts_other_channel_counts :
  num_channels bgra_pixel = 4%nat /\
  In (ECvtColor bgra_pixel COLOR_BGR2GRAY)
     (preprocess_image (sample_env None [] ocr_hello) bgra_pixel []).2 /\
  ~ In (EAdaptiveThreshold bgra_pixel)
      (preprocess_image (sample_env None [] ocr_hello) bgra_pixel []).2 /\
  num_channels one_channel_pixel = 1%nat /\
  In (ECvtColor one_channel_pixel COLOR_BGR2GRAY)
     (preprocess_image (sample_env None [] ocr_hello) one_channel_pixel []).2 /\
  ~ In (EAdaptiveThreshold one_channel_pixel)
      (preprocess_image (sample_env None [] ocr_hello) one_channel_pixel []).2.
Proof. vm_compute. intuition discriminate. Qed.

(** ** Traces of computations *)

Lemma bind_inv_ok {A B : Type} (m : M A) (f : A -> M B) (w : World) b evs :
  bind m f w = (Ok b, evs) ->
  exists a evs1 evs2,
    m w = (Ok a, evs1) /\ f a (w ++ evs1) = (Ok b, evs2) /\
    evs = evs1 ++ evs2.
Proof.
  unfold bind. destruct (m w) as [[a|e] evs1]; [|done].
  destruct (f a (w ++ evs1)) as [r evs2] eqn:Hf. intros [= -> <-].
  by exists a, evs1, evs2.
Qed.

Lemma call_inv_ok {A : Type} (ev : event) (outcome : World -> Result A)
    (w : World) a evs :
  call ev outcome w = (Ok a, evs) -> outcome w = Ok a /\ evs = [ev].
Proof. unfold call. by intros [= -> <-]. Qed.

Section Events.
Context (P : event -> Prop).

Lemma events_ret {A : Type} (a : A) (w : World) : Forall P (ret a w).2.
Proof. constructor. Qed.

Lemma events_call {A : Type} (ev : event) (outcome : World -> Result A)
    (w : World) :
  P ev -> Forall P (call ev outcome w).2.
Proof. intros Hev. simpl. by constructor. Qed.

Lemma events_bind {A B : Type} (m : M A) (f : A -> M B) (w : World) :
  Forall P (m w).2 -> (forall a w', Forall P (f a w').2) ->
  Forall P (bind m f w).2.
Proof.
  intros Hm Hf. unfold bind. destruct (m w) as [[a|e] evs]; [|done].
  specialize (Hf a (w ++ evs)). destruct (f a (w ++ evs)) as [r evs'].
  simpl in *. by apply Forall_app.
Qed.

Lemma events_try_except {A : Type} (body : M A) handler (w : World) :
  Forall P (body w).2 -> (forall e w', Forall P (handler e w').2) ->
  Forall P (try_except body handler w).2.
Proof.
  intros Hm Hf. unfold try_except. destruct (body w) as [[a|e] evs]; [done|].
  specialize (Hf e (w ++ evs)). destruct (handler e (w ++ evs)) as [r evs'].
  simpl in *. by apply Forall_app.
Qed.
End Events.

#[local] Ltac unfold_calls :=
  unfold print, open_w, f_write, cv2_cvtColor, cv2_adaptiveThreshold,
    cv2_morphologyEx, imread, imwrite, pytesseract_image_to_string, makedirs,
    pdf2image_convert_from_path, image_save.

#[local] Ltac events :=
  unfold_calls;
  repeat match goal with
    | |- Forall _ (ret _ _).2 => apply events_ret
    | |- Forall _ (call _ _ _).2 => apply events_call
    | |- Forall _ (bind _ _ _).2 => apply events_bind; [|intros ? ?]
    | |- Forall _ (try_except _ _ _).2 => apply events_try_except; [|intros ? ?]
    end.

Lemma artifact_paths_none (evs : list event) :
  Forall (fun e => artifact_path e = None) evs -> artifact_paths evs = [].
Proof.
  unfold artifact_paths. induction 1 as [|e evs He _ IH]; [done|].
  simpl. by rewrite He.
Qed.

Lemma written_text_untouched (out : string) (evs : list event) :
  Forall (fun e => is_text_io e = false) evs -> written_text out evs = None.
Proof.
  unfold written_text. induction 1 as [|e evs He _ IH]; [done|].
  simpl. destruct e; try done.
Qed.

Lemma string_app_empty_r (s : string) : s +:+ "" = s.
Proof.
  induction s as [|a s IH]; [done|].
  change (String a (s +:+ "") = String a s). by rewrite IH.
Qed.

Lemma string_prefix_app (s t : string) : String.prefix s (s +:+ t) = true.
Proof.
  induction s as [|a s IH]; simpl; [by destruct t|].
  destruct (ascii_dec a a); [done|congruence].
Qed.

Section ImageFile.
Context (env : Env).

Lemma preprocess_image_events (P : event -> Prop) (img : ndarray)
    (w : World) :
  (forall src code, P (ECvtColor src code)) ->
  (forall src, P (EAdaptiveThreshold src)) ->
  (forall src op kernel, P (EMorphologyEx src op kernel)) ->
  Forall P (preprocess_image env img w).2.
Proof.
  intros Hc Ha Hm. unfold preprocess_image. events; [|by apply Ha|by apply Hm].
  unfold to_gray. case_match; events. apply Hc.
Qed.

Lemma process_image_file_events (image_path : string) (w : World) :
  Forall (fun e => image_file_event image_path e = true)
    (process_image_file env image_path w).2.
Proof.
  unfold process_image_file, image_try_body. events; try done.
  - destruct a as [img|]; events; try done.
    + by apply preprocess_image_events.
    + apply String.eqb_refl.
    + unfold image_file_event. by rewrite string_prefix_app.
  - unfold image_file_event.
    rewrite (string_prefix_app "Error processing image ").
    by rewrite orb_true_r.
Qed.

Lemma image_file_event_not_output (args : Args) (e : event) :
  image_file_event (input args) e = true ->
  is_text_io e = false /\ e <> EPrint (success_message args) /\
  forall p, artifact_path e = Some p ->
            p = "preprocessed_" +:+ basename (input args).
Proof.
  destruct e; simpl; try done.
  - intros Hline. split_and!; [done| |done]. intros [= ->].
    by simpl in Hline.
  - intros Heq%String.eqb_eq. split_and!; [done..|]. by intros p [= <-].
Qed.

Lemma process_image_file_no_output (args : Args) (w : World) :
  Forall (fun e => is_text_io e = false)
    (process_image_file env (input args) w).2 /\
  ~ In (EPrint (success_message args))
      (process_image_file env (input args) w).2 /\
  written_text (output args) (process_image_file env (input args) w).2
  = None.
Proof.
  pose proof (process_image_file_events (input args) w) as Hev.
  assert (Forall (fun e => is_text_io e = false)
            (process_image_file env (input args) w).2) as Hio.
  { eapply Forall_impl; [exact Hev|]. intros e He.
    by apply (image_file_event_not_output args). }
  split_and!; [done| |by apply written_text_untouched].
  intros Hin. rewrite Forall_forall in Hev.
  apply list_elem_of_In, Hev, (image_file_event_not_output args) in Hin.
  by destruct Hin as (_ & ? & _).
Qed.

(** The only image file that a run of [process_image_file] can write. *)
Lemma process_image_file_side_image (args : Args) (w : World) :
  Forall (fun p => p = "preprocessed_" +:+ basename (input args))
    (artifact_paths (process_image_file env (input args) w).2).
Proof.
  pose proof (process_image_file_events (input args) w) as Hev.
  unfold artifact_paths. apply Forall_forall. intros p Hp.
  apply list_elem_of_omap in Hp as (e & He & Hpath).
  rewrite Forall_forall in Hev.
  by apply (image_file_event_not_output args e (Hev e He)).
Qed.

Lemma main_dispatch_image (args : Args) (w : World) :
  In (file_ext_of (input args)) image_extensions ->
  main env args w = main_image env args w.
Proof.
  intros Hin. unfold main.
  assert (existsb (String.eqb (file_ext_of (input args))) image_extensions
          = true) as ->.
  { apply existsb_exists. exists (file_ext_of (input args)).
    split; [done|]. apply String.eqb_refl. }
  destruct (String.eqb_spec (file_ext_of (input args)) ".pdf") as [Heq|];
    [|done].
  rewrite Heq in Hin. simpl in Hin.
  repeat (destruct Hin as [Hin|Hin]; [discriminate|]). done.
Qed.

(** [main] adds nothing to a run of [process_image_file] that gave
    [None] or the empty string. *)
Lemma main_image_falsy (args : Args) (w : World) (text : option string) :
  (process_image_file env (input args) w).1 = Ok text ->
  text = None \/ text = Some "" ->
  main_image env args w
  = (Ok tt, (process_image_file env (input args) w).2).
Proof.
  intros Hrun Htext. unfold main_image.
  rewrite (bind_ok _ _ _ text (process_image_file env (input args) w).2).
  - destruct Htext as [-> | ->]; simpl; by rewrite app_nil_r.
  - rewrite <- Hrun. apply pair_eta.
Qed.
End ImageFile.

(** C6: when the lowered extension of the input path is none of the six
    supported ones, the whole run of [main] consists of two printed lines,
    the first naming the extension and the second the supported formats:
    no file is opened or written, the recognition engine is not called, and
    neither processor runs. *)
Theorem main_unsupported_extension (env : Env) (args : Args) (w : World) :
  file_ext_of (input args) <> ".pdf" ->
  ~ In (file_ext_of (input args)) image_extensions ->
  main env args w
  = (Ok tt,
     [EPrint ("Unsupported file format: " +:+ file_ext_of (input args));
      EPrint "Supported formats: PDF, JPG, JPEG, PNG, TIFF, BMP"]) /\
  Forall (fun e => is_text_io e = false /\ is_ocr e = false
                   /\ artifact_path e = None)
    (main env args w).2.
Proof.
  intros Hpdf Himg.
  assert (main env args w
          = main_unsupported (file_ext_of (input args)) w) as ->.
  { unfold main. apply String.eqb_neq in Hpdf. rewrite Hpdf.
    destruct (existsb _ image_extensions) eqn:Hex; [|done].
    apply existsb_exists in Hex as (ext & Hin & Heq).
    apply String.eqb_eq in Heq. by subst ext. }
  split; [done|]. simpl. repeat constructor.
Qed.

Lemma main_unsupported_extension_witness :
  file_ext_of (input text_args) <> ".pdf" /\
  ~ In (file_ext_of (input text_args)) image_extensions /\
  main (sample_env None [] ocr_hello) text_args []
  = (Ok tt,
     [EPrint "Unsupported file format: .txt";
      EPrint "Supported formats: PDF, JPG, JPEG, PNG, TIFF, BMP"]).
Proof.
  assert (file_ext_of (input text_args) <> ".pdf") as Hpdf
    by (vm_compute; discriminate).
  assert (~ In (file_ext_of (input text_args)) image_extensions) as Himg
    by (vm_compute; intuition discriminate).
  split; [exact Hpdf|]. split; [exact Himg|].
  exact (proj1 (main_unsupported_extension (sample_env None [] ocr_hello)
                  text_args [] Hpdf Himg)).
Defined.

(** C7: for an input with an image extension whose load gives no buffer
    or whose processing raises, [process_image_file] ends by printing a
    message that contains the path and returns [None] without raising;
    [main] then adds no event of its own, so that in the whole run no text
    file is opened or written (the output path is neither created nor
    truncated) and the success message is not printed.  The run of a
    failed load is the call to the decoder and the message; the only file
    that a run with an exception can have written is the side image
    [preprocessed_<basename>] of [process_image_file]. *)
Theorem main_image_failure_leaves_output (env : Env) (args : Args)
    (w : World) :
  In (file_ext_of (input args)) image_extensions ->
  cv2_imread env w (input args) = Ok None \/
  succeeds (image_try_body env (input args) w).1 = false ->
  exists evs before after,
    process_image_file env (input args) w
    = (Ok None, evs ++ [EPrint (before +:+ input args +:+ after)]) /\
    main env args w = (Ok tt, (process_image_file env (input args) w).2) /\
    Forall (fun e => is_text_io e = false) (main env args w).2 /\
    ~ In (EPrint (success_message args)) (main env args w).2 /\
    written_text (output args) (main env args w).2 = None /\
    Forall (fun p => p = "preprocessed_" +:+ basename (input args))
      (artifact_paths (main env args w).2) /\
    (cv2_imread env w (input args) = Ok None ->
     main env args w
     = (Ok tt, [EImread (input args);
                EPrint ("Failed to load image: " +:+ input args)])).
Proof.
  intros Hext Hfail.
  assert (exists evs before after,
    process_image_file env (input args) w
    = (Ok None, evs ++ [EPrint (before +:+ input args +:+ after)]))
    as (evs & before & after & Hrun).
  { destruct (image_try_body env (input args) w) as [[text|e] evs] eqn:Hbody.
    - destruct Hfail as [Hload|Hraise]; [|done].
      unfold image_try_body, bind, imread, call in Hbody.
      rewrite Hload in Hbody. simpl in Hbody.
      exists [EImread (input args)], "Failed to load image: ", "".
      unfold process_image_file, try_except, image_try_body, bind, imread,
        call.
      rewrite Hload. simpl.
      by rewrite string_app_empty_r.
    - exists evs, "Error processing image ", (": " +:+ e).
      unfold process_image_file.
      by rewrite (try_except_raise _ _ _ e evs Hbody). }
  pose proof (process_image_file_no_output env args w) as (Hio & Hmsg & Hout).
  assert (main env args w
          = (Ok tt, (process_image_file env (input args) w).2)) as Hmain.
  { rewrite main_dispatch_image by done.
    apply (main_image_falsy env args w None); [by rewrite Hrun|by left]. }
  pose proof (process_image_file_side_image env args w) as Hside.
  exists evs, before, after. rewrite Hmain. cbn [snd].
  split_and!; try done.
  intros Hload. f_equal.
  unfold process_image_file, try_except, image_try_body, bind, imread, call.
  by rewrite Hload.
Qed.

Lemma main_image_failure_leaves_output_witness :
  (In (file_ext_of (input image_args)) image_extensions /\
   cv2_imread (sample_env None [] ocr_hello) [] (input image_args) = Ok None /\
   main (sample_env None [] ocr_hello) image_args []
   = (Ok tt, (process_image_file (sample_env None [] ocr_hello)
                (input image_args) []).2)) /\
  (succeeds (image_try_body (sample_env (Some bgr_image) [] ocr_raises)
               (input image_args) []).1 = false /\
   written_text (output image_args)
     (main (sample_env (Some bgr_image) [] ocr_raises) image_args []).2
   = None).
Proof.
  assert (In (file_ext_of (input image_args)) image_extensions) as Hext
    by (vm_compute; tauto).
  split.
  - destruct (main_image_failure_leaves_output
                (sample_env None [] ocr_hello) image_args [] Hext
                (or_introl eq_refl))
      as (evs & before & after & _ & Hmain & _).
    split; [exact Hext|]. split; [reflexivity|exact Hmain].
  - destruct (main_image_failure_leaves_output
                (sample_env (Some bgr_image) [] ocr_raises) image_args []
                Hext (or_intror eq_refl))
      as (evs & before & after & _ & _ & _ & _ & Hout & _).
    split; [reflexivity|exact Hout].
Defined.

(** The preprocessor returns [preprocessed_image] after [preprocess_calls]
    whenever it returns an image. *)
Lemma preprocess_image_ok_run (env : Env) (img : ndarray) (w : World) :
  succeeds (preprocess_image env img w).1 = true ->
  preprocess_image env img w
  = (Ok (preprocessed_image (filters env) img),
     preprocess_calls (filters env) img).
Proof.
  rewrite preprocess_image_run, to_gray_run.
  destruct img as [rows|rows]; [done|]. simpl.
  destruct (forallb (forallb color_pixel) rows); done.
Qed.


(** ** Artifacts of runs that fail *)

Lemma bind_events {A B : Type} (m : M A) (f : A -> M B) (w : World) :
  (bind m f w).2
  = (m w).2 ++ match (m w).1 with
               | Ok a => (f a (w ++ (m w).2)).2
               | Raise _ => []
               end.
Proof.
  unfold bind. destruct (m w) as [[a|e] evs]; simpl.
  - by destruct (f a (w ++ evs)).
  - by rewrite app_nil_r.
Qed.


(** ** Files after a run *)

Lemma file_after_app (env : Env) (path : string) (w : World)
    (st : option file_content) (evs1 evs2 : list event) :
  file_after env path w st (evs1 ++ evs2)
  = file_after env path (w ++ evs1) (file_after env path w st evs1) evs2.
Proof.
  revert w st. induction evs1 as [|e evs1 IH]; intros w st.
  - simpl. by rewrite app_nil_r.
  - simpl. rewrite IH. by rewrite <- app_assoc.
Qed.


Lemma artifact_outcomes_app (env : Env) (w : World) (evs1 evs2 : list event) :
  artifact_outcomes env w (evs1 ++ evs2)
  = artifact_outcomes env w evs1 ++ artifact_outcomes env (w ++ evs1) evs2.
Proof.
  revert w. induction evs1 as [|e evs1 IH]; intros w.
  - simpl. by rewrite app_nil_r.
  - simpl. rewrite IH. by rewrite <- !app_assoc.
Qed.

Lemma artifact_outcomes_paths (env : Env) (w : World) (evs : list event) :
  map fst (artifact_outcomes env w evs) = artifact_paths evs.
Proof.
  revert w. induction evs as [|e evs IH]; intros w; [done|].
  simpl. rewrite map_app, IH. by destruct e.
Qed.

(** When every image write reported success, the files written are the
    paths of the writes. *)
Lemma written_artifacts_all (env : Env) (w : World) (evs : list event) :
  forallb snd (artifact_outcomes env w evs) = true ->
  written_artifacts env w evs = artifact_paths evs.
Proof.
  intros Hall. rewrite <- (artifact_outcomes_paths env w evs).
  unfold written_artifacts.
  induction (artifact_outcomes env w evs) as [|[p b] os IH]; [done|].
  simpl in *. apply andb_true_iff in Hall as [-> Hos]. simpl.
  f_equal. by apply IH.
Qed.

Lemma written_artifacts_none (env : Env) (w : World) (evs : list event) :
  artifact_paths evs = [] -> written_artifacts env w evs = [].
Proof.
  intros Hnone. unfold written_artifacts.
  pose proof (artifact_outcomes_paths env w evs) as Hpaths.
  rewrite Hnone in Hpaths. by destruct (artifact_outcomes env w evs).
Qed.







(** ** The PDF processor *)

(** ** The PDF processor *)

Lemma string_app_assoc (a b c : string) : (a +:+ b) +:+ c = a +:+ b +:+ c.
Proof.
  induction a as [|x a IH]; [done|].
  change (String x ((a +:+ b) +:+ c) = String x (a +:+ b +:+ c)).
  by rewrite IH.
Qed.

Section PdfFile.
Context (env : Env).

Lemma write_pages_events (out : string) (results : list page_result)
    (w : World) :
  Forall (fun e => output_event e = true) (write_pages env out results w).2.
Proof.
  revert w. induction results as [|r rest IH]; intros w; [constructor|].
  cbn [write_pages]. events; try done.
Qed.

(** Writes that all return leave the concatenation of the separators and
    the texts after what the file held. *)
Lemma write_pages_ok (out : string) (results : list page_result) (w : World)
    u evs :
  write_pages env out results w = (Ok u, evs) ->
  evs = results ≫= page_writes out /\
  forall c, file_after env out w (Some (TextFile c)) evs
            = Some (TextFile (c +:+ pages_text results)).
Proof.
  revert w evs. induction results as [|r rest IH]; intros w evs Hrun.
  - unfold write_pages, ret in Hrun. simplify_eq. split; [done|].
    intros c. simpl. by rewrite string_app_empty_r.
  - cbn [write_pages] in Hrun.
    apply bind_inv_ok in Hrun as ([] & e1 & e2 & Hsep & Hrun & ->).
    apply call_inv_ok in Hsep as [Hsep ->].
    apply bind_inv_ok in Hrun as ([] & e3 & e4 & Htext & Hrun & ->).
    apply call_inv_ok in Htext as [Htext ->].
    apply IH in Hrun as [-> Hfile]. split; [done|].
    intros c. cbn [app file_after file_step].
    rewrite String.eqb_refl, Hsep, Htext. cbn [andb succeeds].
    rewrite Hfile. cbn [pages_text]. by rewrite !string_app_assoc.
Qed.

Lemma process_pdf_file_run (pdf_path : string)
    (output_folder : option string) (w : World) :
  process_pdf_file env pdf_path output_folder w
  = match pdf_try_body env pdf_path output_folder [] w with
    | (Ok results, evs) => (Ok results, evs)
    | (Raise e, evs) =>
        (Ok [], evs ++ [EPrint (pdf_error_message pdf_path e)])
    end.
Proof.
  unfold process_pdf_file, try_except.
  by destruct (pdf_try_body env pdf_path output_folder [] w)
    as [[results|e] evs].
Qed.

Lemma process_pdf_file_total (pdf_path : string)
    (output_folder : option string) (w : World) :
  exists results evs,
    process_pdf_file env pdf_path output_folder w = (Ok results, evs).
Proof.
  rewrite process_pdf_file_run.
  destruct (pdf_try_body env pdf_path output_folder [] w)
    as [[results|e] evs]; eauto.
Qed.

Lemma main_dispatch_pdf (args : Args) (w : World) :
  file_ext_of (input args) = ".pdf" -> main env args w = main_pdf env args w.
Proof. intros Hext. unfold main. by rewrite Hext. Qed.

(** What [main] adds to a run of [process_pdf_file]: the open of the
    output file, always, and then only writes and the summary. *)
Lemma main_pdf_events (args : Args) (w : World) results evs :
  process_pdf_file env (input args) (pdf_folder args) w = (Ok results, evs) ->
  exists rest,
    (main_pdf env args w).2 = evs ++ EOpenW (output args) :: rest /\
    Forall (fun e => output_event e = true) rest.
Proof.
  intros Hrun. unfold main_pdf. fold (pdf_folder args).
  rewrite bind_events, Hrun. cbn [fst snd].
  rewrite bind_events. unfold open_w at 1 2, call. cbn [fst snd].
  eexists. split; [reflexivity|].
  destruct (fs_open env (w ++ evs) (output args)); [|constructor].
  events; try done. apply write_pages_events.
Qed.

Lemma main_pdf_cases (args : Args) (w : World) results evs :
  process_pdf_file env (input args) (pdf_folder args) w = (Ok results, evs) ->
  main_pdf env args w
  = match fs_open env (w ++ evs) (output args) with
    | Raise e => (Raise e, evs ++ [EOpenW (output args)])
    | Ok _ =>
        match write_pages env (output args) results
                ((w ++ evs) ++ [EOpenW (output args)]) with
        | (Ok _, evs1) =>
            (Ok tt,
             evs ++ EOpenW (output args)
                 :: evs1 ++ [EPrint (pdf_summary args (length results))])
        | (Raise e, evs1) => (Raise e, evs ++ EOpenW (output args) :: evs1)
        end
    end.
Proof.
  intros Hrun. unfold main_pdf. fold (pdf_folder args).
  unfold bind at 1. rewrite Hrun. unfold bind at 1, open_w, call.
  destruct (fs_open env (w ++ evs) (output args)) as [[]|e]; [|done].
  unfold bind at 1.
  by destruct (write_pages env (output args) results
                 ((w ++ evs) ++ [EOpenW (output args)])) as [[[]|e] evs1].
Qed.

Lemma main_pdf_open_raises (args : Args) (w : World) results evs e :
  process_pdf_file env (input args) (pdf_folder args) w = (Ok results, evs) ->
  fs_open env (w ++ evs) (output args) = Raise e ->
  main_pdf env args w = (Raise e, evs ++ [EOpenW (output args)]).
Proof.
  intros Hrun Hopen. by rewrite (main_pdf_cases args w _ _ Hrun), Hopen.
Qed.

(** A run of [main] on a PDF that returns: the open and every write have
    returned, and the file holds the separators and the texts. *)
Lemma main_pdf_ok (args : Args) (w : World) results evs :
  process_pdf_file env (input args) (pdf_folder args) w = (Ok results, evs) ->
  (main_pdf env args w).1 = Ok tt ->
  fs_open env (w ++ evs) (output args) = Ok tt /\
  main_pdf env args w
  = (Ok tt,
     evs ++ EOpenW (output args)
         :: (results ≫= page_writes (output args))
         ++ [EPrint (pdf_summary args (length results))]) /\
  forall st,
    file_after env (output args) w st
      (evs ++ EOpenW (output args)
           :: (results ≫= page_writes (output args))
           ++ [EPrint (pdf_summary args (length results))])
    = Some (TextFile (pages_text results)).
Proof.
  intros Hrun. rewrite (main_pdf_cases args w _ _ Hrun).
  destruct (fs_open env (w ++ evs) (output args)) as [[]|e] eqn:Hopen;
    [|done].
  destruct (write_pages env (output args) results
              ((w ++ evs) ++ [EOpenW (output args)]))
    as [[[]|e] evs1] eqn:Hwrite; [|done].
  intros _. destruct (write_pages_ok _ _ _ _ _ Hwrite) as [-> Hfile].
  split_and!; [done|done|].
  intros st. rewrite file_after_app. cbn [file_after file_step].
  rewrite String.eqb_refl, Hopen. cbn [andb succeeds].
  rewrite file_after_app, Hfile. done.
Qed.

Lemma main_pdf_empty (args : Args) (w : World) evs :
  process_pdf_file env (input args) (pdf_folder args) w = (Ok [], evs) ->
  fs_open env (w ++ evs) (output args) = Ok tt ->
  main_pdf env args w
  = (Ok tt, evs ++ [EOpenW (output args); EPrint (pdf_summary args 0)]) /\
  forall st,
    file_after env (output args) w st
      (evs ++ [EOpenW (output args); EPrint (pdf_summary args 0)])
    = Some (TextFile "").
Proof.
  intros Hrun Hopen.
  assert (main_pdf env args w
          = (Ok tt,
             evs ++ [EOpenW (output args); EPrint (pdf_summary args 0)]))
    as Hmain.
  { by rewrite (main_pdf_cases args w _ _ Hrun), Hopen. }
  split; [done|]. intros st.
  destruct (main_pdf_ok args w [] evs Hrun) as (_ & _ & Hfile);
    [by rewrite Hmain|].
  apply Hfile.
Qed.

Lemma save_page_artifacts_ok (output_folder : option string) (n : nat)
    (image : PIL_Image) (preprocessed : ndarray) (w : World) u evs :
  save_page_artifacts env output_folder n image preprocessed w = (Ok u, evs) ->
  artifact_paths evs = expected_artifacts output_folder n.
Proof.
  unfold save_page_artifacts, expected_artifacts.
  destruct output_folder as [folder|]; [|by intros [= _ <-]].
  destruct (str_truthy folder); [|by intros [= _ <-]].
  intros Hrun.
  apply bind_inv_ok in Hrun as ([] & e1 & e2 & Hsave & Hrun & ->).
  apply call_inv_ok in Hsave as [_ ->].
  apply bind_inv_ok in Hrun as (b & e3 & e4 & Hwrite & Hret & ->).
  apply call_inv_ok in Hwrite as [_ ->]. unfold ret in Hret.
  by simplify_eq.
Qed.

Lemma pdf_page_body_ok (output_folder : option string) (n i : nat)
    (image : PIL_Image) (w : World) r evs :
  pdf_page_body env output_folder n i image w = (Ok r, evs) ->
  page r = (i + 1)%nat /\
  artifact_paths evs = expected_artifacts output_folder (i + 1).
Proof.
  unfold pdf_page_body. intros Hrun.
  apply bind_inv_ok in Hrun as ([] & e1 & e2 & Hprint & Hrun & ->).
  apply call_inv_ok in Hprint as [_ ->].
  apply bind_inv_ok in Hrun as (pre & e3 & e4 & Hpre & Hrun & ->).
  apply bind_inv_ok in Hrun as ([] & e5 & e6 & Hsave & Hrun & ->).
  apply bind_inv_ok in Hrun as (s & e7 & e8 & Hocr & Hret & ->).
  apply call_inv_ok in Hocr as [_ ->]. unfold ret in Hret. simplify_eq.
  split; [done|].
  assert (artifact_paths e3 = []) as Hnone.
  { apply artifact_paths_none. apply (f_equal snd) in Hpre. simpl in Hpre.
    subst e3. by apply preprocess_image_events. }
  apply save_page_artifacts_ok in Hsave.
  unfold artifact_paths in *.
  rewrite !omap_app, Hnone, Hsave. simpl. by rewrite app_nil_r.
Qed.

(** A loop that completes has appended one result per image, numbered
    from [i + 1] on, and has written the artifacts of those pages. *)
Lemma pdf_page_loop_ok (output_folder : option string) (n : nat)
    (images : list PIL_Image) (i : nat) (results : list page_result)
    (w : World) rs evs :
  pdf_page_loop env output_folder n images i results w = (Ok rs, evs) ->
  exists new,
    rs = results ++ new /\
    map page new = seq (i + 1) (length images) /\
    artifact_paths evs
    = seq (i + 1) (length images) ≫= expected_artifacts output_folder.
Proof.
  revert i results w rs evs.
  induction images as [|image rest IH]; intros i results w rs evs Hrun.
  - unfold pdf_page_loop, ret in Hrun. simplify_eq.
    exists []. by rewrite app_nil_r.
  - cbn [pdf_page_loop] in Hrun.
    apply bind_inv_ok in Hrun as (r & e1 & e2 & Hbody & Hrun & ->).
    apply pdf_page_body_ok in Hbody as [Hpage Hart].
    apply IH in Hrun as (new & -> & Hpages & Harts).
    exists (r :: new). split_and!.
    + by rewrite <- app_assoc.
    + cbn [map length seq]. rewrite Hpage. f_equal.
      by replace (S (i + 1)) with (S i + 1)%nat by lia.
    + unfold artifact_paths in *. rewrite omap_app, Hart, Harts.
      cbn [length seq]. rewrite bind_cons.
      by replace (S (i + 1)) with (S i + 1)%nat by lia.
Qed.

Lemma pdf_rasterize_ok (pdf_path : string) (output_folder : option string)
    (w : World) images evs :
  pdf_rasterize env pdf_path output_folder w = (Ok images, evs) ->
  artifact_paths evs = [] /\
  match output_folder with
  | Some folder => str_truthy folder = true -> In (EMakedirs folder) evs
  | None => True
  end.
Proof.
  unfold pdf_rasterize. intros Hrun.
  apply bind_inv_ok in Hrun as ([] & e1 & e2 & Hdirs & Hrun & ->).
  apply bind_inv_ok in Hrun as ([] & e3 & e4 & Hprint & Hconv & ->).
  apply call_inv_ok in Hprint as [_ ->].
  apply call_inv_ok in Hconv as [_ ->].
  destruct output_folder as [folder|].
  - destruct (str_truthy folder).
    + apply call_inv_ok in Hdirs as [_ ->]. split; [done|]. intros _.
      by left.
    + unfold ret in Hdirs. simplify_eq. done.
  - unfold ret in Hdirs. simplify_eq. done.
Qed.

(** The run of the [try] block once the rasterization has succeeded. *)
Lemma pdf_try_body_run (pdf_path : string) (output_folder : option string)
    (w : World) images evs0 :
  pdf_rasterize env pdf_path output_folder w = (Ok images, evs0) ->
  pdf_try_body env pdf_path output_folder [] w
  = ((pdf_page_loop env output_folder (length images) images 0 []
        (w ++ evs0)).1,
     evs0 ++ (pdf_page_loop env output_folder (length images) images 0 []
                (w ++ evs0)).2).
Proof. intros Hrun. unfold pdf_try_body. by rewrite (bind_ok _ _ _ _ _ Hrun). Qed.

End PdfFile.

(** ** Separator lines of the output file *)

Lemma split_lines_cons (s : string) : exists l ls, split_lines s = l :: ls.
Proof.
  induction s as [|c s (l & ls & IH)]; [by eexists _, _|].
  simpl. rewrite IH. destruct (Ascii.eqb c LF); by eexists _, _.
Qed.

Lemma split_lines_newline (a b : string) :
  split_lines (a +:+ String LF b) = split_lines a ++ split_lines b.
Proof.
  induction a as [|c a IH]; [done|].
  change (String c a +:+ String LF b) with (String c (a +:+ String LF b)).
  cbn [split_lines]. rewrite IH.
  destruct (split_lines_cons a) as (l & ls & ->).
  by destruct (Ascii.eqb c LF).
Qed.

Lemma split_lines_one_line (s : string) :
  has_char LF s = false -> split_lines s = [s].
Proof.
  induction s as [|c s IH]; [done|]. simpl.
  intros [Hc Hs]%orb_false_iff. by rewrite Hc, (IH Hs).
Qed.

Lemma has_char_app (c : ascii) (a b : string) :
  has_char c (a +:+ b) = has_char c a || has_char c b.
Proof.
  induction a as [|x a IH]; [done|].
  change (String x a +:+ b) with (String x (a +:+ b)). simpl.
  by rewrite IH, orb_assoc.
Qed.

Lemma all_digits_no_newline (s : string) :
  all_digits s = true -> has_char LF s = false.
Proof.
  induction s as [|c s IH]; [done|]. simpl.
  intros [Hc Hs]%andb_true_iff. rewrite (IH Hs), orb_false_r.
  destruct (Ascii.eqb_spec c LF) as [->|]; done.
Qed.

Lemma pretty_N_char_digit (x : N) : is_digit (pretty_N_char x) = true.
Proof. unfold pretty_N_char. by repeat case_match. Qed.

Lemma pretty_N_go_number (x : N) (s : string) :
  is_number s = true -> is_number (pretty_N_go x s) = true.
Proof.
  revert s. induction (N.lt_wf_0 x) as [x _ IH]; intros s Hs.
  destruct (decide (0 < x)%N) as [Hpos|Hzero].
  - rewrite pretty_N_go_step by done. apply IH.
    + apply N.div_lt; lia.
    + apply andb_true_iff in Hs as [_ Hs]. unfold is_number. simpl.
      by rewrite pretty_N_char_digit, Hs.
  - assert (x = 0%N) as -> by lia. by rewrite pretty_N_go_0.
Qed.

(** [str(n)] is a non-empty string of digits. *)
Lemma pretty_nat_number (n : nat) : is_number (pretty n) = true.
Proof.
  unfold pretty, pretty_nat, pretty, pretty_N.
  destruct (decide (N.of_nat n = 0%N)) as [|Hne]; [done|].
  rewrite pretty_N_go_step by lia. apply pretty_N_go_number.
  unfold is_number. simpl. by rewrite pretty_N_char_digit.
Qed.

(** ** Artifact files *)

Lemma string_length_app (a b : string) :
  String.length (a +:+ b) = (String.length a + String.length b)%nat.
Proof.
  induction a as [|x a IH]; [done|].
  change (S (String.length (a +:+ b))
          = S (String.length a + String.length b)).
  by rewrite IH.
Qed.

Lemma str_drop_app (a b : string) : str_drop (String.length a) (a +:+ b) = b.
Proof. induction a as [|x a IH]; [by destruct b|]. exact IH. Qed.

Lemma str_take_app (a b : string) : str_take (String.length a) (a +:+ b) = a.
Proof.
  induction a as [|x a IH]; [by destruct b|].
  change (String x (str_take (String.length a) (a +:+ b)) = String x a).
  by rewrite IH.
Qed.

(** The line that [main] writes between the blank lines of a separator is
    a separator line, and a single line. *)
Lemma separator_line_spec (k : nat) :
  is_separator_line ("===== PAGE " +:+ pretty k +:+ " =====") = true /\
  split_lines ("===== PAGE " +:+ pretty k +:+ " =====")
  = ["===== PAGE " +:+ pretty k +:+ " ====="].
Proof.
  pose proof (pretty_nat_number k) as Hnum. split.
  - unfold is_separator_line. cbv zeta. rewrite string_prefix_app.
    change 11%nat with (String.length "===== PAGE ").
    rewrite str_drop_app, string_length_app.
    change (String.length " =====") with 6%nat.
    replace (String.length (pretty k) + 6 - 6)%nat
      with (String.length (pretty k)) by lia.
    rewrite str_drop_app, str_take_app, Hnum.
    replace (6 <=? String.length (pretty k) + 6)%nat with true
      by (symmetry; apply Nat.leb_le; lia).
    done.
  - apply split_lines_one_line. rewrite !has_char_app.
    apply andb_true_iff in Hnum as [_ Hdigits].
    by rewrite (all_digits_no_newline _ Hdigits).
Qed.

Lemma count_separator_lines_newline (a b : string) :
  count_separator_lines (a +:+ String LF b)
  = (count_separator_lines a + count_separator_lines b)%nat.
Proof.
  unfold count_separator_lines.
  by rewrite split_lines_newline, filter_app, length_app.
Qed.

Lemma pages_text_head (results : list page_result) :
  pages_text results = "" \/ exists rest, pages_text results = String LF rest.
Proof. destruct results as [|r rest]; [by left|right]. by eexists. Qed.

Lemma count_separator_lines_before_pages (t : string)
    (results : list page_result) :
  count_separator_lines (t +:+ pages_text results)
  = (count_separator_lines t + count_separator_lines (pages_text results))%nat.
Proof.
  destruct (pages_text_head results) as [->|[rest ->]].
  - rewrite string_app_empty_r. unfold count_separator_lines at 3. simpl. lia.
  - rewrite count_separator_lines_newline.
    change (String LF rest) with ("" +:+ String LF rest).
    by rewrite (count_separator_lines_newline "" rest).
Qed.

Lemma page_separator_lines (k : nat) (t : string) :
  page_separator k +:+ t
  = "" +:+ String LF ("" +:+ String LF
      (("===== PAGE " +:+ pretty k +:+ " =====")
       +:+ String LF ("" +:+ String LF t))).
Proof.
  unfold page_separator.
  change (String "010" (String "010"
            ("===== PAGE " +:+ pretty k +:+ " ====="
             +:+ String "010" (String "010" ""))) +:+ t)
    with (String LF (String LF
            (("===== PAGE " +:+ pretty k +:+ " ====="
              +:+ String LF (String LF "")) +:+ t))).
  change ("" +:+ String LF ("" +:+ String LF
            (("===== PAGE " +:+ pretty k +:+ " =====")
             +:+ String LF ("" +:+ String LF t))))
    with (String LF (String LF
            (("===== PAGE " +:+ pretty k +:+ " =====")
             +:+ String LF (String LF t)))).
  by rewrite !string_app_assoc.
Qed.

(** The separator lines of the text that [main] writes: one per page
    result, and those that the recognised texts hold themselves. *)
Lemma count_separator_lines_pages (results : list page_result) :
  count_separator_lines (pages_text results)
  = (length results + texts_separator_lines results)%nat.
Proof.
  induction results as [|r rest IH]; [done|].
  cbn [pages_text length texts_separator_lines].
  rewrite page_separator_lines, !count_separator_lines_newline.
  rewrite count_separator_lines_before_pages, IH.
  destruct (separator_line_spec (page r)) as [Hsep Hline].
  unfold count_separator_lines at 1 2 3. rewrite Hline. simpl.
  rewrite filter_cons_True by (by rewrite Hsep). simpl. lia.
Qed.

Lemma main_image_none_no_open (env : Env) (args : Args) (w : World) :
  In (file_ext_of (input args)) image_extensions ->
  (process_image_file env (input args) w).1 = Ok None ->
  Forall (fun e => is_text_io e = false) (main env args w).2.
Proof.
  intros Hext Hrun. rewrite main_dispatch_image by done.
  rewrite (main_image_falsy env args w None) by (done || by left).
  apply process_image_file_no_output.
Qed.

(** C1, as the code has it: when the rasterization of a PDF gives N page
    images and the loop over them raises nothing, [process_pdf_file]
    returns N page results whose page numbers are 1, ..., N in this order.
    When [main] then returns (the output file could be opened and every
    write returned), it has written into that file, for each result in
    order, the separator made of two newlines, the line
    [===== PAGE <number> =====] and two newlines, directly followed by the
    text of the page, and nothing else.  The separator lines of the file
    are these N and the lines of the same form that the recognised texts
    contain themselves: exactly N when no text contains one. *)
Theorem pdf_pages_numbered_in_order (env : Env) (args : Args) (w : World)
    (images : list PIL_Image) (evs0 : list event) :
  file_ext_of (input args) = ".pdf" ->
  pdf_rasterize env (input args) (pdf_folder args) w = (Ok images, evs0) ->
  succeeds (pdf_page_loop env (pdf_folder args) (length images) images 0 []
              (w ++ evs0)).1 = true ->
  exists results evs,
    process_pdf_file env (input args) (pdf_folder args) w = (Ok results, evs) /\
    length results = length images /\
    map page results = seq 1 (length images) /\
    ((main env args w).1 = Ok tt ->
     (main env args w).2
     = evs ++ EOpenW (output args)
           :: (results ≫= fun r =>
                 [EWrite (output args)
                    (String LF (String LF
                       ("===== PAGE " +:+ pretty (page r) +:+ " ====="
                        +:+ String LF (String LF ""))));
                  EWrite (output args) (text r)])
           ++ [EPrint (pdf_summary args (length images))] /\
     file_after env (output args) w None (main env args w).2
     = Some (TextFile (pages_text results))) /\
    count_separator_lines (pages_text results)
    = (length images + texts_separator_lines results)%nat /\
    (texts_separator_lines results = 0%nat ->
     count_separator_lines (pages_text results) = length images).
Proof.
  intros Hext Hraster Hloop.
  destruct (pdf_page_loop env (pdf_folder args) (length images) images 0 []
              (w ++ evs0)) as [[results|e] evs1] eqn:Hrun; [|done].
  destruct (pdf_page_loop_ok env _ _ _ _ _ _ _ _ Hrun)
    as (new & Hres & Hpages & _).
  simpl in Hres. subst new.
  assert (length results = length images) as Hlen.
  { apply (f_equal length) in Hpages.
    by rewrite length_map, length_seq in Hpages. }
  assert (process_pdf_file env (input args) (pdf_folder args) w
          = (Ok results, evs0 ++ evs1)) as Hpdf.
  { rewrite process_pdf_file_run, (pdf_try_body_run env _ _ _ _ _ Hraster).
    by rewrite Hrun. }
  pose proof (count_separator_lines_pages results) as Hcount.
  rewrite Hlen in Hcount.
  exists results, (evs0 ++ evs1). split_and!; try done.
  - rewrite (main_dispatch_pdf env args w Hext). intros Hok.
    destruct (main_pdf_ok env args w _ _ Hpdf Hok) as (_ & -> & Hfile).
    cbn [snd]. by rewrite Hfile, Hlen.
  - intros Hnone. rewrite Hcount, Hnone. lia.
Qed.

Lemma pdf_pages_numbered_in_order_witness :
  exists results evs,
    process_pdf_file (sample_env None two_pages ocr_hello) "scan.PDF"
      (Some "pg") [] = (Ok results, evs) /\
    length results = 2%nat /\
    map page results = [1; 2]%nat /\
    file_after (sample_env None two_pages ocr_hello) "out.txt" [] None
      (main (sample_env None two_pages ocr_hello) (pdf_args true "pg") []).2
    = Some (TextFile (pages_text results)) /\
    count_separator_lines (pages_text results) = 2%nat.
Proof.
  destruct (pdf_pages_numbered_in_order
              (sample_env None two_pages ocr_hello) (pdf_args true "pg") []
              two_pages
              [EMakedirs "pg"; EPrint "Converting PDF to images: scan.PDF";
               EConvertFromPath "scan.PDF"]
              eq_refl eq_refl eq_refl)
    as (results & evs & Hrun & Hlen & Hpages & Hmain & Hcount & _).
  exists results, evs. split_and!; try assumption.
  - by apply Hmain.
  - rewrite Hcount. vm_compute in Hrun. by injection Hrun as <- _.
Defined.

(** C1, the claim as stated fails: a one-page run whose recognised text
    holds a line of the form of a separator completes and leaves a file
    with two separator lines; and when the output file cannot be opened, a
    two-page run whose loop completes leaves no output file at all, since
    the exception of [open] leaves [main]. *)
Lemma separator_lines_are_not_always_N :
  (process_pdf_file (sample_env None one_page ocr_separator_text) "scan.PDF"
     None []).1
  = Ok [{| page := 1;
           text := "see" +:+ String LF
                     ("===== PAGE 2 =====" +:+ String LF "below") |}] /\
  (main (sample_env None one_page ocr_separator_text) (pdf_args false "")
     []).1 = Ok tt /\
  file_after (sample_env None one_page ocr_separator_text) "out.txt" [] None
    (main (sample_env None one_page ocr_separator_text) (pdf_args false "")
       []).2
  = Some (TextFile
            (String LF (String LF ("===== PAGE 1 =====" +:+ String LF
               (String LF ("see" +:+ String LF
                  ("===== PAGE 2 =====" +:+ String LF "below"))))))) /\
  count_separator_lines
    (String LF (String LF ("===== PAGE 1 =====" +:+ String LF
       (String LF ("see" +:+ String LF
          ("===== PAGE 2 =====" +:+ String LF "below"))))))
  = 2%nat /\
  length one_page = 1%nat /\
  (process_pdf_file unwritable_output_env "scan.PDF" None []).1
  = Ok [{| page := 1; text := "hello" |}; {| page := 2; text := "hello" |}] /\
  (main unwritable_output_env (pdf_args false "") []).1
  = Raise "[Errno 2] No such file or directory: 'out.txt'" /\
  file_after unwritable_output_env "out.txt" [] None
    (main unwritable_output_env (pdf_args false "") []).2 = None.
Proof. vm_compute. tauto. Qed.

(** C2: when the rasterization has succeeded and the loop over the pages
    raises, at whatever page and in whatever call, [process_pdf_file]
    catches the exception, prints its message and returns the empty list:
    the results appended for the earlier pages are dropped. *)
Theorem process_pdf_file_error_returns_empty (env : Env) (pdf_path : string)
    (output_folder : option string) (w : World) (images : list PIL_Image)
    (evs0 : list event) :
  pdf_rasterize env pdf_path output_folder w = (Ok images, evs0) ->
  succeeds (pdf_page_loop env output_folder (length images) images 0 []
              (w ++ evs0)).1 = false ->
  exists e evs1,
    pdf_page_loop env output_folder (length images) images 0 [] (w ++ evs0)
    = (Raise e, evs1) /\
    process_pdf_file env pdf_path output_folder w
    = (Ok [], evs0 ++ evs1 ++ [EPrint (pdf_error_message pdf_path e)]).
Proof.
  intros Hraster Hloop.
  destruct (pdf_page_loop env output_folder (length images) images 0 []
              (w ++ evs0)) as [[results|e] evs1] eqn:Hrun; [done|].
  exists e, evs1. split; [done|].
  rewrite process_pdf_file_run, (pdf_try_body_run env _ _ _ _ _ Hraster).
  rewrite Hrun. simpl. by rewrite <- app_assoc.
Qed.


Lemma process_pdf_file_error_returns_empty_witness :
  exists e evs1,
    In (EImageToString (Arr2 [[0; 255]; [0; 255]])) evs1 /\
    process_pdf_file (sample_env None two_pages ocr_fails_second) "scan.PDF"
      None []
    = (Ok [],
       [EPrint "Converting PDF to images: scan.PDF";
        EConvertFromPath "scan.PDF"]
       ++ evs1 ++ [EPrint (pdf_error_message "scan.PDF" e)]).
Proof.
  destruct (process_pdf_file_error_returns_empty
              (sample_env None two_pages ocr_fails_second) "scan.PDF" None []
              two_pages
              [EPrint "Converting PDF to images: scan.PDF";
               EConvertFromPath "scan.PDF"]
              eq_refl eq_refl)
    as (e & evs1 & Hloop & Hrun).
  exists e, evs1. split; [|exact Hrun].
  vm_compute in Hloop. injection Hloop as _ <-. vm_compute. tauto.
Defined.


(** C10, as the code has it: for an input with extension [.pdf], [main]
    always goes on to open the output file for writing, whatever
    [process_pdf_file] returned, also the empty list of a failed run.
    When the open returns, the file is created or truncated and, the
    writes returning, the summary with the number of page results is
    printed; a failed PDF run then leaves an empty file, whereas a
    single-image run that returned [None] does not open the file at all.
    When the open raises, the exception leaves [main]: no summary is
    printed and [main] has made no file. *)
Theorem main_pdf_always_opens_output (env : Env) (args : Args) (w : World) :
  file_ext_of (input args) = ".pdf" ->
  exists results evs,
    process_pdf_file env (input args) (pdf_folder args) w = (Ok results, evs) /\
    (exists rest,
       (main env args w).2 = evs ++ EOpenW (output args) :: rest /\
       Forall (fun e => output_event e = true) rest) /\
    (succeeds (pdf_try_body env (input args) (pdf_folder args) [] w).1 = false ->
     results = []) /\
    ((main env args w).1 = Ok tt ->
     fs_open env (w ++ evs) (output args) = Ok tt /\
     (main env args w).2
     = evs ++ EOpenW (output args)
           :: (results ≫= page_writes (output args))
           ++ [EPrint (pdf_summary args (length results))] /\
     file_after env (output args) w None (main env args w).2
     = Some (TextFile (pages_text results))) /\
    (results = [] -> fs_open env (w ++ evs) (output args) = Ok tt ->
     main env args w
     = (Ok tt, evs ++ [EOpenW (output args); EPrint (pdf_summary args 0)]) /\
     file_after env (output args) w None (main env args w).2
     = Some (TextFile "")) /\
    (forall e, fs_open env (w ++ evs) (output args) = Raise e ->
     main env args w = (Raise e, evs ++ [EOpenW (output args)]) /\
     file_after env (output args) w None (main env args w).2
     = file_after env (output args) w None evs) /\
    (forall image_args : Args,
       In (file_ext_of (input image_args)) image_extensions ->
       (process_image_file env (input image_args) w).1 = Ok None ->
       Forall (fun e => is_text_io e = false) (main env image_args w).2).
Proof.
  intros Hext.
  destruct (process_pdf_file_total env (input args) (pdf_folder args) w)
    as (results & evs & Hpdf).
  exists results, evs. rewrite (main_dispatch_pdf env args w Hext).
  split_and!.
  - done.
  - exact (main_pdf_events env args w results evs Hpdf).
  - intros Hfail. rewrite process_pdf_file_run in Hpdf.
    destruct (pdf_try_body env (input args) (pdf_folder args) [] w)
      as [[rs|e] evs']; [done|].
    by simplify_eq.
  - intros Hok.
    destruct (main_pdf_ok env args w _ _ Hpdf Hok) as (Hopen & -> & Hfile).
    by rewrite Hfile.
  - intros -> Hopen.
    destruct (main_pdf_empty env args w _ Hpdf Hopen) as [-> Hfile].
    by rewrite Hfile.
  - intros e Hopen. rewrite (main_pdf_open_raises env args w _ _ e Hpdf Hopen).
    split; [done|]. cbn [snd]. rewrite file_after_app. simpl.
    by rewrite String.eqb_refl, Hopen.
  - intros image_args. apply main_image_none_no_open.
Qed.

Lemma main_pdf_always_opens_output_witness :
  file_ext_of (input (pdf_args false "")) = ".pdf" /\
  succeeds (pdf_try_body (sample_env None two_pages ocr_fails_second)
              "scan.PDF" None [] []).1 = false /\
  file_after (sample_env None two_pages ocr_fails_second) "out.txt" [] None
    (main (sample_env None two_pages ocr_fails_second) (pdf_args false "")
       []).2 = Some (TextFile "").
Proof.
  split; [reflexivity|]. split; [reflexivity|].
  destruct (main_pdf_always_opens_output
              (sample_env None two_pages ocr_fails_second) (pdf_args false "")
              [] eq_refl)
    as (results & evs & Hpdf & _ & Hfail & _ & Hempty & _).
  exact (proj2 (Hempty (Hfail eq_refl) eq_refl)).
Defined.

(** C10, the claim as stated fails: with an output path that cannot be
    opened, [main] on a [.pdf] input raises at the open, after the two
    pages were processed: no file is created and no summary is printed. *)
Lemma main_pdf_unwritable_output :
  file_ext_of (input (pdf_args false "")) = ".pdf" /\
  (main unwritable_output_env (pdf_args false "") []).1
  = Raise "[Errno 2] No such file or directory: 'out.txt'" /\
  file_after unwritable_output_env "out.txt" [] None
    (main unwritable_output_env (pdf_args false "") []).2 = None /\
  printed (main unwritable_output_env (pdf_args false "") []).2
  = ["Converting PDF to images: scan.PDF"; "Processing page 1/2";
     "Processing page 2/2"].
Proof. vm_compute. tauto. Qed.

(** ** Artifact files *)

Lemma string_app_inj_r (a b c : string) : a +:+ c = b +:+ c -> a = b.
Proof.
  revert b. induction a as [|x a IH]; intros [|y b] Heq.
  - done.
  - apply (f_equal String.length) in Heq.
    rewrite !string_length_app in Heq. simpl in Heq. lia.
  - apply (f_equal String.length) in Heq.
    rewrite !string_length_app in Heq. simpl in Heq. lia.
  - change (String x (a +:+ c) = String y (b +:+ c)) in Heq.
    injection Heq as -> Heq. f_equal. by apply IH.
Qed.

(** The directory part that [os.path.join] puts before a relative name. *)
Lemma path_join_relative (folder name : string) :
  startswith name "/" = false ->
  path_join folder name
  = (if negb (str_truthy folder) || endswith folder "/"
     then folder else folder +:+ "/") +:+ name.
Proof.
  intros Hrel. unfold path_join. rewrite Hrel.
  destruct (negb (str_truthy folder) || endswith folder "/"); [done|].
  by rewrite string_app_assoc.
Qed.

Lemma page_artifacts_prefix (folder : string) (n : nat) :
  exists dir,
    forall m, page_artifacts folder m
              = [dir +:+ "page_" +:+ pretty m +:+ ".jpg";
                 dir +:+ "preprocessed_page_" +:+ pretty m +:+ ".jpg"].
Proof.
  exists (if negb (str_truthy folder) || endswith folder "/"
          then folder else folder +:+ "/").
  intros m. unfold page_artifacts. by rewrite !path_join_relative.
Qed.

Lemma page_name_inj (n m : nat) :
  "page_" +:+ pretty n +:+ ".jpg" = "page_" +:+ pretty m +:+ ".jpg" -> n = m.
Proof.
  intros Heq. apply (inj (String.app "page_")) in Heq.
  apply string_app_inj_r in Heq. by apply (inj pretty) in Heq.
Qed.

Lemma preprocessed_page_name_inj (n m : nat) :
  "preprocessed_page_" +:+ pretty n +:+ ".jpg"
  = "preprocessed_page_" +:+ pretty m +:+ ".jpg" -> n = m.
Proof.
  intros Heq. apply (inj (String.app "preprocessed_page_")) in Heq.
  apply string_app_inj_r in Heq. by apply (inj pretty) in Heq.
Qed.

Lemma page_names_differ (n m : nat) :
  "page_" +:+ pretty n +:+ ".jpg"
  <> "preprocessed_page_" +:+ pretty m +:+ ".jpg".
Proof.
  change (String "p" (String "a" ("ge_" +:+ pretty n +:+ ".jpg"))
          <> String "p" (String "r"
               ("eprocessed_page_" +:+ pretty m +:+ ".jpg"))).
  congruence.
Qed.

(** The artifact files of pages [j+1 .. j+k] are [2 * k] different paths. *)
Lemma page_artifacts_distinct (folder : string) (j k : nat) :
  NoDup (seq j k ≫= page_artifacts folder) /\
  length (seq j k ≫= page_artifacts folder) = (2 * k)%nat.
Proof.
  destruct (page_artifacts_prefix folder 0) as [dir Hdir]. split.
  - apply NoDup_bind; [| |apply NoDup_seq].
    + intros n m y _ _. rewrite !Hdir, !elem_of_cons, !elem_of_nil.
      intros [->|[->|[]]] [Heq|[Heq|[]]];
        apply (inj (String.app dir)) in Heq.
      * by apply page_name_inj.
      * by apply page_names_differ in Heq.
      * symmetry in Heq. by apply page_names_differ in Heq.
      * by apply preprocessed_page_name_inj.
    + intros n _. rewrite Hdir. apply NoDup_cons. split.
      * rewrite elem_of_cons, elem_of_nil. intros [Heq|[]].
        apply (inj (String.app dir)) in Heq. by apply page_names_differ in Heq.
      * apply NoDup_singleton.
  - revert j. induction k as [|k IH]; intros j; [done|].
    cbn [seq]. rewrite bind_cons, length_app, IH. simpl. lia.
Qed.

Section PdfArtifacts.
Context (env : Env).

Lemma pdf_page_loop_events_without_folder (output_folder : option string)
    (n : nat) (images : list PIL_Image) (i : nat)
    (results : list page_result) (w : World) :
  expected_artifacts output_folder 0 = [] ->
  Forall (fun e => pdf_event_without_folder e = true)
    (pdf_page_loop env output_folder n images i results w).2.
Proof.
  intros Hnone. revert i results w.
  induction images as [|image rest IH]; intros i results w.
  - constructor.
  - cbn [pdf_page_loop]. events; [|apply IH].
    unfold pdf_page_body. events; try done.
    + by apply preprocess_image_events.
    + unfold save_page_artifacts. unfold expected_artifacts in Hnone.
      destruct output_folder as [folder|]; [|events].
      destruct (str_truthy folder); [done|events].
Qed.
End PdfArtifacts.

Lemma process_pdf_file_events_without_folder (env : Env) (pdf_path : string)
    (output_folder : option string) (w : World) :
  expected_artifacts output_folder 0 = [] ->
  Forall (fun e => pdf_event_without_folder e = true)
    (process_pdf_file env pdf_path output_folder w).2.
Proof.
  intros Hnone. unfold process_pdf_file, pdf_try_body. events; try done.
  - unfold pdf_rasterize. events; try done.
    unfold expected_artifacts in Hnone.
    destruct output_folder as [folder|]; [|events].
    destruct (str_truthy folder); [done|events].
  - by apply pdf_page_loop_events_without_folder.
Qed.

Lemma pdf_event_without_folder_spec (e : event) :
  pdf_event_without_folder e = true ->
  artifact_path e = None /\ is_makedirs e = false.
Proof. by destruct e. Qed.

Lemma omap_none {A B : Type} (f : A -> option B) (l : list A) :
  Forall (fun x => f x = None) l -> omap f l = [].
Proof. induction 1 as [|x l Hx _ IH]; [done|]. simpl. by rewrite Hx. Qed.

Lemma output_event_spec (e : event) :
  output_event e = true ->
  artifact_path e = None /\ is_makedirs e = false /\ ocr_input e = None.
Proof. by destruct e. Qed.

(** What [main] adds to a PDF run concerns neither the artifacts nor the
    folder. *)
Lemma main_pdf_artifact_paths (env : Env) (args : Args) (w : World)
    results evs :
  process_pdf_file env (input args) (pdf_folder args) w = (Ok results, evs) ->
  artifact_paths (main_pdf env args w).2 = artifact_paths evs /\
  ocr_inputs (main_pdf env args w).2 = ocr_inputs evs /\
  (Forall (fun e => is_makedirs e = false) evs ->
   Forall (fun e => is_makedirs e = false) (main_pdf env args w).2).
Proof.
  intros Hpdf.
  destruct (main_pdf_events env args w results evs Hpdf)
    as (rest & -> & Hrest).
  assert (Forall (fun e => artifact_path e = None /\ is_makedirs e = false
                           /\ ocr_input e = None) rest) as Hclass.
  { eapply Forall_impl; [exact Hrest|]. intros e He.
    by apply output_event_spec. }
  split_and!.
  - unfold artifact_paths. rewrite omap_app. simpl.
    rewrite (omap_none _ rest), app_nil_r; [done|].
    eapply Forall_impl; [exact Hclass|]. by intros e (? & _).
  - unfold ocr_inputs. rewrite omap_app. simpl.
    rewrite (omap_none _ rest), app_nil_r; [done|].
    eapply Forall_impl; [exact Hclass|]. by intros e (_ & _ & ?).
  - intros Hevs. apply Forall_app. split; [done|]. constructor; [done|].
    eapply Forall_impl; [exact Hclass|]. by intros e (_ & ? & _).
Qed.

Lemma pdf_rasterize_makedirs (env : Env) (pdf_path folder : string)
    (w : World) images evs :
  pdf_rasterize env pdf_path (Some folder) w = (Ok images, evs) ->
  str_truthy folder = true ->
  os_makedirs env w folder = Ok tt.
Proof.
  unfold pdf_rasterize. intros Hrun Hfolder. rewrite Hfolder in Hrun.
  apply bind_inv_ok in Hrun as ([] & e1 & e2 & Hdirs & _).
  by apply call_inv_ok in Hdirs as [-> _].
Qed.

(** C8, as the code has it: a PDF run with [--pages] and a non-empty
    [--pages-dir] whose rasterization gives N images, whose loop raises
    nothing and in which every image write reports success ([image.save]
    returns, [cv2.imwrite] returns [True]) has created the directory and
    written into it exactly the 2 x N files [page_<n>.jpg] and
    [preprocessed_page_<n>.jpg], n = 1..N, all different; a PDF run
    without [--pages] makes no image write at all and does not create the
    directory, whatever happens in it. *)
Theorem pdf_run_artifact_files (env : Env) (args : Args) (w : World) :
  file_ext_of (input args) = ".pdf" ->
  (pages args = true -> str_truthy (pages_dir args) = true ->
   forall images evs0,
     pdf_rasterize env (input args) (pdf_folder args) w = (Ok images, evs0) ->
     succeeds (pdf_page_loop env (pdf_folder args) (length images) images 0 []
                 (w ++ evs0)).1 = true ->
     forallb snd (artifact_outcomes env w (main env args w).2) = true ->
     written_artifacts env w (main env args w).2
     = seq 1 (length images) ≫= page_artifacts (pages_dir args) /\
     NoDup (written_artifacts env w (main env args w).2) /\
     length (written_artifacts env w (main env args w).2)
     = (2 * length images)%nat /\
     In (EMakedirs (pages_dir args)) (main env args w).2 /\
     os_makedirs env w (pages_dir args) = Ok tt) /\
  (pages args = false ->
   artifact_paths (main env args w).2 = [] /\
   written_artifacts env w (main env args w).2 = [] /\
   Forall (fun e => is_makedirs e = false) (main env args w).2).
Proof.
  intros Hext. rewrite (main_dispatch_pdf env args w Hext). split.
  - intros Hpages Hdir images evs0 Hraster Hloop Hall.
    destruct (pdf_page_loop env (pdf_folder args) (length images) images 0 []
                (w ++ evs0)) as [[results|e] evs1] eqn:Hrun; [|done].
    destruct (pdf_page_loop_ok env _ _ _ _ _ _ _ _ Hrun)
      as (new & _ & _ & Harts).
    destruct (pdf_rasterize_ok env _ _ _ _ _ Hraster) as [Hnone Hmk].
    assert (process_pdf_file env (input args) (pdf_folder args) w
            = (Ok results, evs0 ++ evs1)) as Hpdf.
    { rewrite process_pdf_file_run, (pdf_try_body_run env _ _ _ _ _ Hraster).
      by rewrite Hrun. }
    destruct (main_pdf_artifact_paths env args w _ _ Hpdf) as (Hpaths & _).
    rewrite (written_artifacts_all env w _ Hall), Hpaths.
    assert (artifact_paths (evs0 ++ evs1)
            = seq 1 (length images) ≫= page_artifacts (pages_dir args))
      as ->.
    { unfold artifact_paths in *. rewrite omap_app, Hnone, Harts.
      unfold pdf_folder, expected_artifacts. by rewrite Hpages, Hdir. }
    destruct (page_artifacts_distinct (pages_dir args) 1 (length images))
      as [Hnodup Hlen].
    unfold pdf_folder in Hmk, Hraster. rewrite Hpages in Hmk, Hraster.
    split_and!; try done.
    + destruct (main_pdf_events env args w _ _ Hpdf) as (rest & -> & _).
      rewrite !in_app_iff. left. left. by apply Hmk.
    + by apply (pdf_rasterize_makedirs env _ _ _ _ _ Hraster).
  - intros Hpages.
    destruct (process_pdf_file_total env (input args) (pdf_folder args) w)
      as (results & evs & Hpdf).
    pose proof (process_pdf_file_events_without_folder env (input args)
                  (pdf_folder args) w) as Hev.
    rewrite Hpdf in Hev. cbn [snd] in Hev.
    unfold pdf_folder in Hev. rewrite Hpages in Hev.
    specialize (Hev eq_refl).
    destruct (main_pdf_artifact_paths env args w _ _ Hpdf)
      as (Hpaths & _ & Hmk).
    assert (artifact_paths (main_pdf env args w).2 = []) as Hnone.
    { rewrite Hpaths. apply artifact_paths_none.
      eapply Forall_impl; [exact Hev|]. intros e He.
      by apply pdf_event_without_folder_spec. }
    split_and!; [done|by apply written_artifacts_none|].
    apply Hmk. eapply Forall_impl; [exact Hev|]. intros e He.
    by apply pdf_event_without_folder_spec.
Qed.

Lemma pdf_run_artifact_files_witness :
  written_artifacts (sample_env None two_pages ocr_hello) []
    (main (sample_env None two_pages ocr_hello) (pdf_args true "pg") []).2
  = ["pg/page_1.jpg"; "pg/preprocessed_page_1.jpg";
     "pg/page_2.jpg"; "pg/preprocessed_page_2.jpg"] /\
  artifact_paths
    (main (sample_env None two_pages ocr_fails_second) (pdf_args false "pg")
       []).2 = [].
Proof.
  split.
  - destruct (proj1 (pdf_run_artifact_files
                       (sample_env None two_pages ocr_hello)
                       (pdf_args true "pg") [] eq_refl)
                eq_refl eq_refl two_pages
                [EMakedirs "pg"; EPrint "Converting PDF to images: scan.PDF";
                 EConvertFromPath "scan.PDF"]
                eq_refl eq_refl eq_refl) as (Hpaths & _).
    rewrite Hpaths. reflexivity.
  - exact (proj1 (proj2 (pdf_run_artifact_files
                           (sample_env None two_pages ocr_fails_second)
                           (pdf_args false "pg") [] eq_refl)
                    eq_refl)).
Defined.

(** C8, the claim as stated fails: with [--pages] set and an empty
    [--pages-dir], a two-page run succeeds, and yet no directory is
    created and none of the four artifact files is written.  And with a
    non-empty directory, a two-page run in which [cv2.imwrite] returns
    [False] without raising also succeeds, and has written only the two
    original page images. *)
Lemma pages_flag_with_empty_dir_writes_nothing :
  pages (pdf_args true "") = true /\
  file_ext_of (input (pdf_args true "")) = ".pdf" /\
  (process_pdf_file (sample_env None two_pages ocr_hello)
     (input (pdf_args true "")) (pdf_folder (pdf_args true "")) []).1
  = Ok [{| page := 1; text := "hello" |}; {| page := 2; text := "hello" |}] /\
  artifact_paths
    (main (sample_env None two_pages ocr_hello) (pdf_args true "") []).2 = [] /\
  length (artifact_paths
    (main (sample_env None two_pages ocr_hello) (pdf_args true "") []).2)
  <> (2 * length two_pages)%nat /\
  existsb is_makedirs
    (main (sample_env None two_pages ocr_hello) (pdf_args true "") []).2
  = false /\
  (process_pdf_file imwrite_false_env
     (input (pdf_args true "pg")) (pdf_folder (pdf_args true "pg")) []).1
  = Ok [{| page := 1; text := "hello" |}; {| page := 2; text := "hello" |}] /\
  written_artifacts imwrite_false_env []
    (main imwrite_false_env (pdf_args true "pg") []).2
  = ["pg/page_1.jpg"; "pg/page_2.jpg"].
Proof. vm_compute. repeat split; discriminate. Qed.

(** ** Further properties of the driver *)

Lemma process_image_file_returns (env : Env) (image_path : string)
    (w : World) :
  exists text, (process_image_file env image_path w).1 = Ok text.
Proof.
  unfold process_image_file, try_except.
  destruct (image_try_body env image_path w) as [[text|e] evs]; simpl; eauto.
Qed.

Lemma main_image_tail_cases (env : Env) (args : Args)
    (text : option string) (w : World) :
  main_image_tail env args text w
  = match text with
    | Some t =>
        if str_truthy t then
          match fs_open env w (output args) with
          | Raise e => (Raise e, [EOpenW (output args)])
          | Ok _ =>
              match fs_write env (w ++ [EOpenW (output args)])
                      (output args) t with
              | Raise e =>
                  (Raise e, [EOpenW (output args); EWrite (output args) t])
              | Ok _ =>
                  (Ok tt,
                   [EOpenW (output args); EWrite (output args) t;
                    EPrint (success_message args)])
              end
          end
        else (Ok tt, [])
    | None => (Ok tt, [])
    end.
Proof.
  destruct text as [t|]; [|done]. unfold main_image_tail.
  destruct (str_truthy t); [|done].
  unfold bind, open_w, f_write, print, call.
  destruct (fs_open env w (output args)) as [[]|e]; [|done].
  by destruct (fs_write env (w ++ [EOpenW (output args)]) (output args) t)
    as [[]|e].
Qed.

Lemma main_image_run (env : Env) (args : Args) (w : World)
    (text : option string) :
  (process_image_file env (input args) w).1 = Ok text ->
  main_image env args w
  = ((main_image_tail env args text
        (w ++ (process_image_file env (input args) w).2)).1,
     (process_image_file env (input args) w).2
     ++ (main_image_tail env args text
           (w ++ (process_image_file env (input args) w).2)).2).
Proof.
  intros Hrun. unfold main_image.
  apply (bind_ok _ _ _ text (process_image_file env (input args) w).2).
  rewrite <- Hrun. apply pair_eta.
Qed.

Lemma main_cases (env : Env) (args : Args) (w : World) :
  (file_ext_of (input args) = ".pdf" /\
   main env args w = main_pdf env args w) \/
  (In (file_ext_of (input args)) image_extensions /\
   main env args w = main_image env args w) \/
  (file_ext_of (input args) <> ".pdf" /\
   ~ In (file_ext_of (input args)) image_extensions /\
   main env args w = main_unsupported (file_ext_of (input args)) w).
Proof.
  unfold main.
  destruct (String.eqb_spec (file_ext_of (input args)) ".pdf") as [Heq|Hne].
  - by left.
  - right. destruct (existsb _ image_extensions) eqn:Hex.
    + left. apply existsb_exists in Hex as (ext & Hin & Heq).
      apply String.eqb_eq in Heq. by subst ext.
    + right. split_and!; [done| |done]. intros Hin.
      assert (existsb (String.eqb (file_ext_of (input args)))
                image_extensions = true) as Htrue; [|congruence].
      apply existsb_exists. eexists. split; [exact Hin|].
      apply String.eqb_refl.
Qed.






Lemma process_pdf_file_events (env : Env) (pdf_path : string)
    (output_folder : option string) (w : World) :
  Forall (fun e => pdf_file_event e = true)
    (process_pdf_file env pdf_path output_folder w).2.
Proof.
  unfold process_pdf_file, pdf_try_body. events; try done.
  - unfold pdf_rasterize. events; try done.
    destruct output_folder as [folder|]; [|events].
    destruct (str_truthy folder); by events.
  - generalize (length a) at 1. generalize 0%nat. generalize (@nil page_result).
    revert w'. induction a as [|image rest IH]; intros w' results i n.
    + constructor.
    + cbn [pdf_page_loop]. events; [|apply IH].
      unfold pdf_page_body. events; try done.
      * by apply preprocess_image_events.
      * unfold save_page_artifacts.
        destruct output_folder as [folder|]; [|events].
        destruct (str_truthy folder); by events.
Qed.

Lemma main_image_tail_events (env : Env) (args : Args)
    (text : option string) (w : World) :
  Forall (fun e => output_event e = true)
    (main_image_tail env args text w).2.
Proof.
  rewrite main_image_tail_cases.
  destruct text as [t|]; [|constructor].
  destruct (str_truthy t); [|constructor].
  destruct (fs_open env w (output args)) as [[]|e1];
    [|by repeat constructor].
  destruct (fs_write env _ (output args) t) as [[]|e2];
    by repeat constructor.
Qed.

(** X3: the decoder [cv2.imread] is called only for an input with an image
    extension, the rasterizer only for an input with extension [.pdf], and
    the recognition engine only for one of the two. *)
Theorem main_dispatch_is_exclusive (env : Env) (args : Args) (w : World) :
  (forall p, In (EImread p) (main env args w).2 ->
             In (file_ext_of (input args)) image_extensions) /\
  (forall p, In (EConvertFromPath p) (main env args w).2 ->
             file_ext_of (input args) = ".pdf") /\
  (forall img, In (EImageToString img) (main env args w).2 ->
               file_ext_of (input args) = ".pdf" \/
               In (file_ext_of (input args)) image_extensions).
Proof.
  destruct (main_cases env args w) as [[Hext ->]|[[Hext ->]|(_ & _ & ->)]].
  - destruct (process_pdf_file_total env (input args) (pdf_folder args) w)
      as (results & evs & Hpdf).
    pose proof (process_pdf_file_events env (input args) (pdf_folder args) w)
      as Hev.
    destruct (main_pdf_events env args w results evs Hpdf)
      as (rest & -> & Hrest).
    rewrite Hpdf in Hev. cbn [snd] in *. split_and!; [|done|by left].
    intros p [Hin|Hin]%in_app_iff.
    + rewrite Forall_forall in Hev. apply list_elem_of_In, Hev in Hin. done.
    + destruct Hin as [|Hin]; [done|].
      rewrite Forall_forall in Hrest.
      apply list_elem_of_In, Hrest in Hin. done.
  - destruct (process_image_file_returns env (input args) w) as [text Hrun].
    pose proof (process_image_file_events env (input args) w) as Hev.
    pose proof (main_image_tail_events env args text
                  (w ++ (process_image_file env (input args) w).2)) as Hrest.
    rewrite (main_image_run env args w text Hrun).
    cbn [snd]. split_and!; [done| |by right].
    intros p [Hin|Hin]%in_app_iff.
    + rewrite Forall_forall in Hev. apply list_elem_of_In, Hev in Hin. done.
    + rewrite Forall_forall in Hrest.
      apply list_elem_of_In, Hrest in Hin. done.
  - simpl. split_and!; intros ?; intuition discriminate.
Qed.

Lemma main_dispatch_is_exclusive_witness :
  In (EConvertFromPath "scan.PDF")
     (main (sample_env None two_pages ocr_hello) (pdf_args false "") []).2 /\
  file_ext_of (input (pdf_args false "")) = ".pdf".
Proof.
  assert (In (EConvertFromPath "scan.PDF")
            (main (sample_env None two_pages ocr_hello) (pdf_args false "")
               []).2) as Hin by (vm_compute; tauto).
  split; [exact Hin|].
  exact (proj1 (proj2 (main_dispatch_is_exclusive
                         (sample_env None two_pages ocr_hello)
                         (pdf_args false "") []))
           "scan.PDF" Hin).
Defined.

(** X4: when the decoder gives an image and the preprocessor accepts it,
    [process_image_file] writes the preprocessed image to
    [preprocessed_<basename>], discards the boolean of [cv2.imwrite] (a
    write that reports failure without raising does not stop the run),
    calls the engine once on the preprocessed image and returns its text
    unchanged. *)
Theorem process_image_file_success (env : Env) (image_path : string)
    (w : World) (img : ndarray) (written : bool) (t : string) :
  cv2_imread env w image_path = Ok (Some img) ->
  succeeds (preprocess_image env img (w ++ [EImread image_path])).1 = true ->
  cv2_imwrite env
    ((w ++ [EImread image_path]) ++ preprocess_calls (filters env) img)
    ("preprocessed_" +:+ basename image_path)
    (preprocessed_image (filters env) img) = Ok written ->
  image_to_string env
    (((w ++ [EImread image_path]) ++ preprocess_calls (filters env) img)
     ++ [EImwrite ("preprocessed_" +:+ basename image_path)
           (preprocessed_image (filters env) img)])
    (preprocessed_image (filters env) img) = Ok t ->
  process_image_file env image_path w
  = (Ok (Some t),
     EImread image_path
     :: preprocess_calls (filters env) img
     ++ [EImwrite ("preprocessed_" +:+ basename image_path)
           (preprocessed_image (filters env) img);
         EImageToString (preprocessed_image (filters env) img)]).
Proof.
  intros Hread Hpre Hwrite Hocr.
  apply preprocess_image_ok_run in Hpre.
  unfold process_image_file, try_except, image_try_body.
  unfold bind at 1, imread at 1, call at 1. rewrite Hread.
  unfold bind at 1. rewrite Hpre.
  unfold bind, imwrite, pytesseract_image_to_string, call, ret.
  rewrite Hwrite, Hocr. done.
Qed.

Lemma process_image_file_success_witness :
  process_image_file imwrite_false_env "photos/receipt.png" []
  = (Ok (Some "hello"),
     EImread "photos/receipt.png"
     :: preprocess_calls sample_filters bgr_image
     ++ [EImwrite "preprocessed_receipt.png"
           (preprocessed_image sample_filters bgr_image);
         EImageToString (preprocessed_image sample_filters bgr_image)]).
Proof.
  exact (process_image_file_success imwrite_false_env "photos/receipt.png" []
           bgr_image false "hello" eq_refl eq_refl eq_refl eq_refl).
Defined.

(** ** Further properties of the PDF processor *)

Lemma save_page_artifacts_trace (env : Env) (output_folder : option string)
    (n : nat) (image : PIL_Image) (preprocessed : ndarray) (w : World) u evs :
  save_page_artifacts env output_folder n image preprocessed w = (Ok u, evs) ->
  evs = save_events output_folder n image preprocessed.
Proof.
  unfold save_page_artifacts, save_events.
  destruct output_folder as [folder|]; [|by intros [= _ <-]].
  destruct (str_truthy folder); [|by intros [= _ <-]].
  intros Hrun.
  apply bind_inv_ok in Hrun as ([] & e1 & e2 & Hsave & Hrun & ->).
  apply call_inv_ok in Hsave as [_ ->].
  apply bind_inv_ok in Hrun as (b & e3 & e4 & Hwrite & Hret & ->).
  apply call_inv_ok in Hwrite as [_ ->]. unfold ret in Hret.
  by simplify_eq.
Qed.

Lemma pdf_page_body_trace (env : Env) (output_folder : option string)
    (n i : nat) (image : PIL_Image) (w : World) r evs :
  pdf_page_body env output_folder n i image w = (Ok r, evs) ->
  page r = (i + 1)%nat /\
  evs = page_events (filters env) output_folder n i image.
Proof.
  unfold pdf_page_body. intros Hrun.
  apply bind_inv_ok in Hrun as ([] & e1 & e2 & Hprint & Hrun & ->).
  apply call_inv_ok in Hprint as [_ ->].
  apply bind_inv_ok in Hrun as (pre & e3 & e4 & Hpre & Hrun & ->).
  apply bind_inv_ok in Hrun as ([] & e5 & e6 & Hsave & Hrun & ->).
  apply bind_inv_ok in Hrun as (s & e7 & e8 & Hocr & Hret & ->).
  apply call_inv_ok in Hocr as [_ ->]. unfold ret in Hret. simplify_eq.
  split; [done|].
  rewrite preprocess_image_ok_run in Hpre by (by rewrite Hpre).
  simplify_eq. apply save_page_artifacts_trace in Hsave. subst e5.
  unfold page_events, progress_line. by rewrite app_nil_r.
Qed.

Lemma pdf_page_loop_trace (env : Env) (output_folder : option string)
    (n : nat) (images : list PIL_Image) (i : nat)
    (results : list page_result) (w : World) rs evs :
  pdf_page_loop env output_folder n images i results w = (Ok rs, evs) ->
  evs = loop_events (filters env) output_folder n images i.
Proof.
  revert i results w rs evs.
  induction images as [|image rest IH]; intros i results w rs evs Hrun.
  - unfold pdf_page_loop, ret in Hrun. by simplify_eq.
  - cbn [pdf_page_loop] in Hrun.
    apply bind_inv_ok in Hrun as (r & e1 & e2 & Hbody & Hrun & ->).
    apply pdf_page_body_trace in Hbody as [_ ->].
    apply IH in Hrun as ->. done.
Qed.

Lemma pdf_rasterize_trace (env : Env) (pdf_path : string)
    (output_folder : option string) (w : World) images evs :
  pdf_rasterize env pdf_path output_folder w = (Ok images, evs) ->
  evs = rasterize_events pdf_path output_folder.
Proof.
  unfold pdf_rasterize, rasterize_events, converting_line. intros Hrun.
  apply bind_inv_ok in Hrun as ([] & e1 & e2 & Hdirs & Hrun & ->).
  apply bind_inv_ok in Hrun as ([] & e3 & e4 & Hprint & Hconv & ->).
  apply call_inv_ok in Hprint as [_ ->].
  apply call_inv_ok in Hconv as [_ ->].
  destruct output_folder as [folder|].
  - destruct (str_truthy folder).
    + by apply call_inv_ok in Hdirs as [_ ->].
    + unfold ret in Hdirs. by simplify_eq.
  - unfold ret in Hdirs. by simplify_eq.
Qed.

Lemma printed_page_events (F : Filters) (output_folder : option string)
    (n i : nat) (image : PIL_Image) :
  printed (page_events F output_folder n i image) = [progress_line (i + 1) n]
  /\ ocr_inputs (page_events F output_folder n i image)
     = [preprocessed_image F (np_array image)].
Proof.
  unfold printed, ocr_inputs, page_events, save_events.
  destruct (np_array image) as [rows|rows], output_folder as [folder|];
    try destruct (str_truthy folder); done.
Qed.

Lemma printed_loop_events (F : Filters) (output_folder : option string)
    (n : nat) (images : list PIL_Image) (i : nat) :
  printed (loop_events F output_folder n images i)
  = map (fun k => progress_line k n) (seq (i + 1) (length images)) /\
  ocr_inputs (loop_events F output_folder n images i)
  = map (fun image => preprocessed_image F (np_array image)) images.
Proof.
  revert i. induction images as [|image rest IH]; intros i; [done|].
  cbn [loop_events length seq map].
  destruct (printed_page_events F output_folder n i image) as [Hp Ho].
  destruct (IH (S i)) as [IHp IHo].
  unfold printed, ocr_inputs in *. rewrite !omap_app, Hp, Ho, IHp, IHo.
  by replace (S (i + 1)) with (S i + 1)%nat by lia.
Qed.

(** A PDF run whose rasterization and loop raise nothing: the processor
    returns one result per image after the events of the rasterization and
    of the loop. *)
Lemma pdf_process_trace (env : Env) (args : Args) (w : World)
    (images : list PIL_Image) (evs0 : list event) :
  pdf_rasterize env (input args) (pdf_folder args) w = (Ok images, evs0) ->
  succeeds (pdf_page_loop env (pdf_folder args) (length images) images 0 []
              (w ++ evs0)).1 = true ->
  exists results,
    length results = length images /\
    process_pdf_file env (input args) (pdf_folder args) w
    = (Ok results,
       rasterize_events (input args) (pdf_folder args)
       ++ loop_events (filters env) (pdf_folder args) (length images) images
            0).
Proof.
  intros Hraster Hloop.
  destruct (pdf_page_loop env (pdf_folder args) (length images) images 0 []
              (w ++ evs0)) as [[results|e] evs1] eqn:Hrun; [|done].
  destruct (pdf_page_loop_ok env _ _ _ _ _ _ _ _ Hrun)
    as (new & Hres & Hpages & _).
  simpl in Hres. subst new.
  assert (length results = length images) as Hlen.
  { apply (f_equal length) in Hpages.
    by rewrite length_map, length_seq in Hpages. }
  exists results. split; [done|].
  rewrite process_pdf_file_run, (pdf_try_body_run env _ _ _ _ _ Hraster).
  rewrite Hrun.
  apply pdf_page_loop_trace in Hrun. apply pdf_rasterize_trace in Hraster.
  by subst evs0 evs1.
Qed.

Lemma printed_page_writes (out : string) (results : list page_result) :
  printed (results ≫= page_writes out) = [] /\
  ocr_inputs (results ≫= page_writes out) = [].
Proof.
  induction results as [|r rest [IHp IHo]]; [done|].
  rewrite bind_cons. unfold printed, ocr_inputs in *.
  by rewrite !omap_app, IHp, IHo.
Qed.

Lemma printed_rasterize_events (pdf_path : string)
    (output_folder : option string) :
  printed (rasterize_events pdf_path output_folder) = [converting_line pdf_path]
  /\ ocr_inputs (rasterize_events pdf_path output_folder) = [].
Proof.
  unfold rasterize_events.
  destruct output_folder as [folder|]; try destruct (str_truthy folder); done.
Qed.

(** X5: the standard output of a PDF run that completes (the loop raises
    nothing and [main] returns, so the output file could be opened and
    written) is the line announcing the conversion, one progress line
    [Processing page k/N] for k = 1..N in order, and the summary with N. *)
Theorem pdf_run_standard_output (env : Env) (args : Args) (w : World)
    (images : list PIL_Image) (evs0 : list event) :
  file_ext_of (input args) = ".pdf" ->
  pdf_rasterize env (input args) (pdf_folder args) w = (Ok images, evs0) ->
  succeeds (pdf_page_loop env (pdf_folder args) (length images) images 0 []
              (w ++ evs0)).1 = true ->
  (main env args w).1 = Ok tt ->
  printed (main env args w).2
  = converting_line (input args)
    :: map (fun k => progress_line k (length images))
         (seq 1 (length images))
    ++ [pdf_summary args (length images)].
Proof.
  intros Hext Hraster Hloop.
  destruct (pdf_process_trace env args w images evs0 Hraster Hloop)
    as (results & Hlen & Hpdf).
  rewrite (main_dispatch_pdf env args w Hext). intros Hmain.
  destruct (main_pdf_ok env args w _ _ Hpdf Hmain) as (_ & -> & _).
  destruct (printed_rasterize_events (input args) (pdf_folder args))
    as [Hr _].
  destruct (printed_loop_events (filters env) (pdf_folder args)
              (length images) images 0) as [Hl _].
  destruct (printed_page_writes (output args) results) as [Hw _].
  unfold printed in *. cbn [snd].
  rewrite !omap_app, Hr, Hl. cbn [omap list_omap printed_line].
  by rewrite omap_app, Hw, Hlen.
Qed.

Lemma pdf_run_standard_output_witness :
  printed (main (sample_env None two_pages ocr_hello) (pdf_args true "pg")
             []).2
  = ["Converting PDF to images: scan.PDF"; "Processing page 1/2";
     "Processing page 2/2"; "Extracted text from 2 pages saved to out.txt"].
Proof.
  exact (pdf_run_standard_output
           (sample_env None two_pages ocr_hello) (pdf_args true "pg") []
           two_pages
           [EMakedirs "pg"; EPrint "Converting PDF to images: scan.PDF";
            EConvertFromPath "scan.PDF"]
           eq_refl eq_refl eq_refl eq_refl).
Defined.

(** X6: in a PDF run that completes, the recognition engine is called
    exactly once per page, in page order, each time on the preprocessed
    image of that page (never on the original page image). *)
Theorem pdf_run_recognizes_each_page_once (env : Env) (args : Args)
    (w : World) (images : list PIL_Image) (evs0 : list event) :
  file_ext_of (input args) = ".pdf" ->
  pdf_rasterize env (input args) (pdf_folder args) w = (Ok images, evs0) ->
  succeeds (pdf_page_loop env (pdf_folder args) (length images) images 0 []
              (w ++ evs0)).1 = true ->
  ocr_inputs (main env args w).2
  = map (fun image => preprocessed_image (filters env) (np_array image))
      images.
Proof.
  intros Hext Hraster Hloop.
  destruct (pdf_process_trace env args w images evs0 Hraster Hloop)
    as (results & _ & Hpdf).
  rewrite (main_dispatch_pdf env args w Hext).
  destruct (main_pdf_artifact_paths env args w _ _ Hpdf) as (_ & -> & _).
  destruct (printed_rasterize_events (input args) (pdf_folder args))
    as [_ Hr].
  destruct (printed_loop_events (filters env) (pdf_folder args)
              (length images) images 0) as [_ Hl].
  unfold ocr_inputs in *.
  by rewrite omap_app, Hr, Hl.
Qed.

Lemma pdf_run_recognizes_each_page_once_witness :
  ocr_inputs (main (sample_env None two_pages ocr_hello) (pdf_args true "pg")
                []).2
  = [Arr2 [[0; 255]; [0; 255]]; Arr2 [[0; 255]; [255; 255]]].
Proof.
  exact (pdf_run_recognizes_each_page_once
           (sample_env None two_pages ocr_hello) (pdf_args true "pg") []
           two_pages
           [EMakedirs "pg"; EPrint "Converting PDF to images: scan.PDF";
            EConvertFromPath "scan.PDF"]
           eq_refl eq_refl eq_refl).
Defined.

Lemma pdf_rasterize_events_class (env : Env) (pdf_path : string)
    (output_folder : option string) (w : World) :
  Forall (fun e => ocr_input e = None /\ artifact_path e = None)
    (pdf_rasterize env pdf_path output_folder w).2.
Proof.
  unfold pdf_rasterize. events; try done.
  destruct output_folder as [folder|]; [|events].
  destruct (str_truthy folder); by events.
Qed.

(** X7: when the folder step or the rasterization of a PDF raises (a
    corrupt or missing file, a missing backend), no page is processed:
    [process_pdf_file] prints the error and returns the empty list, the
    engine is never called and no artifact is written; [main] then opens
    the output file all the same.  When that open returns, the run ends
    with the summary with 0 pages and leaves the output file empty; when it
    raises, the exception leaves [main]. *)
Theorem main_pdf_rasterization_failure (env : Env) (args : Args) (w : World)
    (e : Exn) (evs0 : list event) :
  file_ext_of (input args) = ".pdf" ->
  pdf_rasterize env (input args) (pdf_folder args) w = (Raise e, evs0) ->
  process_pdf_file env (input args) (pdf_folder args) w
  = (Ok [], evs0 ++ [EPrint (pdf_error_message (input args) e)]) /\
  ocr_inputs (main env args w).2 = [] /\
  artifact_paths (main env args w).2 = [] /\
  (fs_open env (w ++ evs0 ++ [EPrint (pdf_error_message (input args) e)])
     (output args) = Ok tt ->
   main env args w
   = (Ok tt,
      evs0 ++ [EPrint (pdf_error_message (input args) e);
               EOpenW (output args); EPrint (pdf_summary args 0)]) /\
   forall st,
     file_after env (output args) w st (main env args w).2
     = Some (TextFile "")) /\
  (forall e',
     fs_open env (w ++ evs0 ++ [EPrint (pdf_error_message (input args) e)])
       (output args) = Raise e' ->
     main env args w
     = (Raise e',
        evs0 ++ [EPrint (pdf_error_message (input args) e);
                 EOpenW (output args)])).
Proof.
  intros Hext Hraster.
  assert (process_pdf_file env (input args) (pdf_folder args) w
          = (Ok [], evs0 ++ [EPrint (pdf_error_message (input args) e)]))
    as Hpdf.
  { rewrite process_pdf_file_run. unfold pdf_try_body, bind.
    by rewrite Hraster. }
  pose proof (pdf_rasterize_events_class env (input args) (pdf_folder args) w)
    as Hclass.
  rewrite Hraster in Hclass. cbn [snd] in Hclass.
  rewrite (main_dispatch_pdf env args w Hext).
  destruct (main_pdf_artifact_paths env args w _ _ Hpdf) as (-> & -> & _).
  split_and!.
  - done.
  - unfold ocr_inputs. rewrite omap_app, omap_none; [done|].
    eapply Forall_impl; [exact Hclass|]. by intros ? [].
  - unfold artifact_paths. rewrite omap_app, omap_none; [done|].
    eapply Forall_impl; [exact Hclass|]. by intros ? [].
  - intros Hopen.
    destruct (main_pdf_empty env args w _ Hpdf Hopen) as [Hmain Hfile].
    rewrite Hmain, <- app_assoc. split; [done|].
    intros st. cbn [snd]. specialize (Hfile st).
    by rewrite <- app_assoc in Hfile.
  - intros e' Hopen.
    rewrite (main_pdf_open_raises env args w _ _ _ Hpdf Hopen).
    by rewrite <- app_assoc.
Qed.

Lemma main_pdf_rasterization_failure_witness :
  main raster_fails_env (pdf_args true "pg") []
  = (Ok tt,
     [EMakedirs "pg"; EPrint "Converting PDF to images: scan.PDF";
      EConvertFromPath "scan.PDF"]
     ++ [EPrint "Error processing PDF scan.PDF: Unable to get page count.";
         EOpenW "out.txt";
         EPrint "Extracted text from 0 pages saved to out.txt"]) /\
  file_after raster_fails_env "out.txt" [] None
    (main raster_fails_env (pdf_args true "pg") []).2
  = Some (TextFile "").
Proof.
  destruct (main_pdf_rasterization_failure raster_fails_env
              (pdf_args true "pg") [] "Unable to get page count."
              [EMakedirs "pg"; EPrint "Converting PDF to images: scan.PDF";
               EConvertFromPath "scan.PDF"]
              eq_refl eq_refl) as (_ & _ & _ & Hopen & _).
  destruct (Hopen eq_refl) as [Hmain Hfile].
  split; [exact Hmain|exact (Hfile None)].
Defined.

(** X8: when a non-empty folder is given and [os.makedirs] raises, the PDF
    is not rasterized: [process_pdf_file] prints the error and returns the
    empty list after that single call. *)
Theorem process_pdf_file_makedirs_failure (env : Env) (pdf_path : string)
    (folder : string) (w : World) (e : Exn) :
  str_truthy folder = true ->
  os_makedirs env w folder = Raise e ->
  process_pdf_file env pdf_path (Some folder) w
  = (Ok [], [EMakedirs folder; EPrint (pdf_error_message pdf_path e)]).
Proof.
  intros Hfolder Hdirs.
  rewrite process_pdf_file_run.
  unfold pdf_try_body, pdf_rasterize, bind, makedirs, call.
  by rewrite Hfolder, Hdirs.
Qed.

Lemma process_pdf_file_makedirs_failure_witness :
  process_pdf_file makedirs_fails_env "scan.PDF" (Some "pg") []
  = (Ok [],
     [EMakedirs "pg";
      EPrint "Error processing PDF scan.PDF: [Errno 13] Permission denied"]).
Proof.
  exact (process_pdf_file_makedirs_failure makedirs_fails_env "scan.PDF" "pg"
           [] "[Errno 13] Permission denied" eq_refl eq_refl).
Defined.

Lemma preprocess_image_valid_run (env : Env) (img : ndarray) (w : World) :
  single_or_three_channel img = true ->
  preprocess_image env img w
  = (Ok (preprocessed_image (filters env) img),
     preprocess_calls (filters env) img).
Proof.
  intros Hvalid. apply preprocess_image_ok_run.
  rewrite preprocess_image_run, to_gray_run.
  destruct img as [rows|rows]; [done|]. simpl in *.
  assert (forallb (forallb color_pixel) rows = true) as ->; [|done].
  rewrite forallb_forall in Hvalid. apply forallb_forall.
  intros row Hrow. specialize (Hvalid row Hrow).
  rewrite forallb_forall in Hvalid. apply forallb_forall.
  intros px Hpx. unfold color_pixel. by rewrite (Hvalid px Hpx).
Qed.

Section DeterministicEngine.
Context (env : Env) (f : ndarray -> string).
Hypothesis engine_is_f : forall w img, image_to_string env w img = Ok (f img).
Hypothesis save_succeeds :
  forall w image p, succeeds (pil_save env w image p) = true.
Hypothesis imwrite_succeeds :
  forall w p img, succeeds (cv2_imwrite env w p img) = true.

Lemma save_page_artifacts_succeeds (output_folder : option string) (n : nat)
    (image : PIL_Image) (preprocessed : ndarray) (w : World) :
  save_page_artifacts env output_folder n image preprocessed w
  = (Ok tt, save_events output_folder n image preprocessed).
Proof.
  unfold save_page_artifacts, save_events.
  destruct output_folder as [folder|]; [|done].
  destruct (str_truthy folder); [|done].
  unfold bind, image_save, imwrite, call, ret.
  pose proof (save_succeeds w image
                (path_join folder ("page_" +:+ pretty n +:+ ".jpg"))) as Hs.
  destruct (pil_save env w image _) as [[]|]; [|done].
  match goal with
  | |- context [cv2_imwrite env ?w' ?p ?img] =>
      pose proof (imwrite_succeeds w' p img) as Hw;
      destruct (cv2_imwrite env w' p img); [done|done]
  end.
Qed.

Lemma pdf_page_body_succeeds (output_folder : option string) (n i : nat)
    (image : PIL_Image) (w : World) :
  single_or_three_channel (np_array image) = true ->
  pdf_page_body env output_folder n i image w
  = (Ok {| page := i + 1;
           text := f (preprocessed_image (filters env) (np_array image)) |},
     page_events (filters env) output_folder n i image).
Proof.
  intros Hvalid. unfold pdf_page_body.
  unfold bind at 1, print at 1, call at 1.
  unfold bind at 1. rewrite (preprocess_image_valid_run env _ _ Hvalid).
  unfold bind at 1. rewrite save_page_artifacts_succeeds.
  unfold bind, pytesseract_image_to_string, call, ret.
  rewrite engine_is_f. unfold page_events, progress_line.
  by rewrite app_nil_r.
Qed.

Lemma pdf_page_loop_succeeds (output_folder : option string) (n : nat)
    (images : list PIL_Image) (i : nat) (results : list page_result)
    (w : World) :
  forallb (fun image => single_or_three_channel (np_array image)) images
  = true ->
  pdf_page_loop env output_folder n images i results w
  = (Ok (results ++ page_results f (filters env) images i),
     loop_events (filters env) output_folder n images i).
Proof.
  revert i results w.
  induction images as [|image rest IH]; intros i results w Hvalid.
  - simpl. unfold ret. by rewrite app_nil_r.
  - simpl in Hvalid. apply andb_true_iff in Hvalid as [Himage Hrest].
    cbn [pdf_page_loop page_results loop_events].
    unfold bind. rewrite (pdf_page_body_succeeds _ _ _ _ _ Himage).
    rewrite (IH _ _ _ Hrest). by rewrite <- app_assoc.
Qed.

End DeterministicEngine.

(** X9: with a recognition engine that is a function [f] of the image and
    writes that do not raise, [process_pdf_file] on a PDF rasterized into
    single- or three-channel pages returns, for the k-th page, the
    dictionary with page number k and text [f] of the preprocessed page,
    in page order. *)
Theorem process_pdf_file_results (env : Env) (f : ndarray -> string)
    (pdf_path : string) (output_folder : option string) (w : World)
    (images : list PIL_Image) (evs0 : list event) :
  (forall w' img, image_to_string env w' img = Ok (f img)) ->
  (forall w' image p, succeeds (pil_save env w' image p) = true) ->
  (forall w' p img, succeeds (cv2_imwrite env w' p img) = true) ->
  pdf_rasterize env pdf_path output_folder w = (Ok images, evs0) ->
  forallb (fun image => single_or_three_channel (np_array image)) images
  = true ->
  process_pdf_file env pdf_path output_folder w
  = (Ok (page_results f (filters env) images 0),
     rasterize_events pdf_path output_folder
     ++ loop_events (filters env) output_folder (length images) images 0).
Proof.
  intros Hocr Hsave Hwrite Hraster Hvalid.
  rewrite process_pdf_file_run, (pdf_try_body_run env _ _ _ _ _ Hraster).
  rewrite (pdf_page_loop_succeeds env f Hocr Hsave Hwrite _ _ _ _ _ _ Hvalid).
  apply pdf_rasterize_trace in Hraster. by subst evs0.
Qed.

Lemma process_pdf_file_results_witness :
  (process_pdf_file (sample_env None two_pages ocr_hello) "scan.PDF"
     (Some "pg") []).1
  = Ok [{| page := 1; text := "hello" |}; {| page := 2; text := "hello" |}].
Proof.
  exact (f_equal fst
           (process_pdf_file_results
              (sample_env None two_pages ocr_hello) (fun _ => "hello")
              "scan.PDF" (Some "pg") [] two_pages
              [EMakedirs "pg"; EPrint "Converting PDF to images: scan.PDF";
               EConvertFromPath "scan.PDF"]
              (fun _ _ => eq_refl) (fun _ _ _ => eq_refl)
              (fun _ _ _ => eq_refl) eq_refl eq_refl)).
Defined.

(** ** Artifacts of runs that fail *)

Lemma artifact_prefix_bind {A B : Type} (m : M A) (f : A -> M B) (w : World)
    (expected : list string) :
  artifact_paths (m w).2 = [] ->
  (forall a w', artifact_paths (f a w').2 `prefix_of` expected) ->
  artifact_paths (bind m f w).2 `prefix_of` expected.
Proof.
  intros Hm Hf. rewrite bind_events. unfold artifact_paths in *.
  rewrite omap_app, Hm. simpl. destruct (m w).1; [apply Hf|apply prefix_nil].
Qed.

Section ArtifactPrefix.
Context (env : Env).

Lemma save_page_artifacts_prefix (output_folder : option string) (n : nat)
    (image : PIL_Image) (preprocessed : ndarray) (w : World) :
  artifact_paths
    (save_page_artifacts env output_folder n image preprocessed w).2
  `prefix_of` expected_artifacts output_folder n.
Proof.
  unfold save_page_artifacts, expected_artifacts.
  destruct output_folder as [folder|]; [|done].
  destruct (str_truthy folder); [|done].
  unfold bind, image_save, imwrite, call, ret, page_artifacts.
  destruct (pil_save env w image _) as [[]|e]; simpl.
  - destruct (cv2_imwrite env _ _ _); done.
  - by apply prefix_cons, prefix_nil.
Qed.

Lemma pdf_page_body_artifacts_prefix (output_folder : option string)
    (n i : nat) (image : PIL_Image) (w : World) :
  artifact_paths (pdf_page_body env output_folder n i image w).2
  `prefix_of` expected_artifacts output_folder (i + 1).
Proof.
  unfold pdf_page_body.
  apply artifact_prefix_bind; [done|intros _ w1].
  apply artifact_prefix_bind; [|intros pre w2].
  { apply artifact_paths_none. by apply preprocess_image_events. }
  rewrite bind_events. unfold artifact_paths. rewrite omap_app.
  fold (artifact_paths
          (save_page_artifacts env output_folder (i + 1) image pre w2).2).
  destruct (save_page_artifacts env output_folder (i + 1) image pre w2)
    as [[u|e] evs] eqn:Hsave; cbn [fst snd].
  - apply save_page_artifacts_ok in Hsave. rewrite Hsave.
    unfold bind, pytesseract_image_to_string, call, ret.
    destruct (image_to_string env _ _); simpl; by rewrite app_nil_r.
  - pose proof (save_page_artifacts_prefix output_folder (i + 1) image pre w2)
      as Hprefix.
    rewrite Hsave in Hprefix. simpl. by rewrite app_nil_r.
Qed.

Lemma pdf_page_loop_artifacts_prefix (output_folder : option string)
    (n : nat) (images : list PIL_Image) (i : nat)
    (results : list page_result) (w : World) :
  artifact_paths (pdf_page_loop env output_folder n images i results w).2
  `prefix_of` (seq (i + 1) (length images) ≫= expected_artifacts output_folder).
Proof.
  revert i results w.
  induction images as [|image rest IH]; intros i results w; [done|].
  cbn [pdf_page_loop length seq]. rewrite bind_cons, bind_events.
  unfold artifact_paths. rewrite omap_app.
  fold (artifact_paths (pdf_page_body env output_folder n i image w).2).
  destruct (pdf_page_body env output_folder n i image w)
    as [[r|e] evs] eqn:Hbody; cbn [fst snd].
  - apply pdf_page_body_ok in Hbody as [_ ->].
    apply prefix_app. replace (S (i + 1)) with (S i + 1)%nat by lia.
    apply IH.
  - pose proof (pdf_page_body_artifacts_prefix output_folder n i image w)
      as Hprefix.
    rewrite Hbody in Hprefix. simpl. rewrite app_nil_r.
    by apply prefix_app_r.
Qed.

End ArtifactPrefix.

(** X10: in every PDF run whose rasterization gave N images, whether the
    loop completes or raises, the artifact files that the run writes or
    tries to write are, in order, an initial part of [page_1.jpg],
    [preprocessed_page_1.jpg], ..., [page_N.jpg],
    [preprocessed_page_N.jpg]: the original of a page always comes before
    its preprocessed image, and a run that fails (and returns no result)
    leaves behind the files of the pages it had reached. *)
Theorem pdf_run_artifacts_in_page_order (env : Env) (args : Args)
    (w : World) (images : list PIL_Image) (evs0 : list event) :
  file_ext_of (input args) = ".pdf" ->
  pdf_rasterize env (input args) (pdf_folder args) w = (Ok images, evs0) ->
  artifact_paths (main env args w).2
  `prefix_of`
  (seq 1 (length images) ≫= expected_artifacts (pdf_folder args)).
Proof.
  intros Hext Hraster.
  destruct (process_pdf_file_total env (input args) (pdf_folder args) w)
    as (results & evs & Hpdf).
  rewrite (main_dispatch_pdf env args w Hext).
  destruct (main_pdf_artifact_paths env args w _ _ Hpdf) as (-> & _).
  rewrite process_pdf_file_run, (pdf_try_body_run env _ _ _ _ _ Hraster)
    in Hpdf.
  pose proof (pdf_page_loop_artifacts_prefix env (pdf_folder args)
                (length images) images 0 [] (w ++ evs0)) as Hprefix.
  destruct (pdf_rasterize_ok env _ _ _ _ _ Hraster) as [Hnone _].
  unfold artifact_paths in *.
  destruct (pdf_page_loop env (pdf_folder args) (length images) images 0 []
              (w ++ evs0)) as [[rs|e] evs1]; cbn [fst snd] in *;
    simplify_eq; rewrite ?omap_app, Hnone; simpl; by rewrite ?app_nil_r.
Qed.

Lemma pdf_run_artifacts_in_page_order_witness :
  artifact_paths (main ocr_fails_env (pdf_args true "pg") []).2
  = ["pg/page_1.jpg"; "pg/preprocessed_page_1.jpg"] /\
  artifact_paths (main ocr_fails_env (pdf_args true "pg") []).2
  `prefix_of`
  (seq 1 (length two_pages) ≫= expected_artifacts (Some "pg")).
Proof.
  split; [reflexivity|].
  exact (pdf_run_artifacts_in_page_order ocr_fails_env (pdf_args true "pg") []
           two_pages
           [EMakedirs "pg"; EPrint "Converting PDF to images: scan.PDF";
            EConvertFromPath "scan.PDF"]
           eq_refl eq_refl).
Defined.

(** ** Paths and separators *)

(** X11: the separator line determines the page number: two pages have
    the same separator only if they have the same number. *)
Theorem page_separator_inj (n m : nat) :
  page_separator n = page_separator m -> n = m.
Proof.
  unfold page_separator. intros Heq. injection Heq as Heq.
  apply (inj (String.app "")) in Heq.
  apply string_app_inj_r in Heq. by apply (inj pretty) in Heq.
Qed.

Lemma page_separator_inj_witness :
  page_separator 12 = page_separator 12 /\ 12%nat = 12%nat.
Proof.
  split; [reflexivity|]. exact (page_separator_inj 12 12 eq_refl).
Defined.

Lemma str_drop_0 (s : string) : str_drop 0 s = s.
Proof. by destruct s. Qed.

Lemma str_take_drop (k : nat) (s : string) : str_take k s +:+ str_drop k s = s.
Proof.
  revert s. induction k as [|k IH]; intros [|a s]; try done.
  change (String a (str_take k s +:+ str_drop k s) = String a s).
  by rewrite IH.
Qed.

Lemma has_char_drop (c : ascii) (k : nat) (s : string) :
  has_char c s = false -> has_char c (str_drop k s) = false.
Proof.
  revert s. induction k as [|k IH]; intros [|a s]; try done.
  simpl. intros [_ Hs]%orb_false_iff. by apply IH.
Qed.

Lemma has_char_drop_add (c : ascii) (j k : nat) (s : string) :
  has_char c (str_drop j s) = false ->
  has_char c (str_drop (j + k) s) = false.
Proof.
  revert s. induction j as [|j IH]; intros s.
  - rewrite str_drop_0. apply has_char_drop.
  - destruct s as [|a s]; [done|]. apply IH.
Qed.

Lemma has_char_get (c : ascii) (j k : nat) (s : string) :
  String.get k s = Some c -> (j <= k)%nat -> has_char c (str_drop j s) = true.
Proof.
  revert j k. induction s as [|a s IH]; intros j k Hget Hle; [done|].
  destruct j as [|j].
  - destruct k as [|k]; simpl in *.
    + injection Hget as ->. by rewrite Ascii.eqb_refl.
    + pose proof (IH 0%nat k Hget ltac:(lia)) as Hs.
      rewrite str_drop_0 in Hs. rewrite Hs. apply orb_true_r.
  - destruct k as [|k]; [lia|]. simpl in *. apply (IH j k Hget). lia.
Qed.

(** What [rfind] finds: the position of a [c] after which there is no
    other, or the default when there is none. *)
Lemma rfind_from_spec (c : ascii) (s : string) (i last : Z) :
  if has_char c s
  then exists k : nat,
         rfind_from c s i last = i + Z.of_nat k /\
         String.get k s = Some c /\
         has_char c (str_drop (S k) s) = false
  else rfind_from c s i last = last.
Proof.
  revert i last. induction s as [|a s IH]; intros i last; [done|].
  cbn [rfind_from has_char].
  specialize (IH (i + 1) (if Ascii.eqb a c then i else last)).
  destruct (has_char c s) eqn:Hs.
  - rewrite orb_true_r. destruct IH as (k & Hr & Hget & Hrest).
    exists (S k). split_and!; [lia|done|done].
  - rewrite orb_false_r. destruct (Ascii.eqb_spec a c) as [->|Hne].
    + exists 0%nat. split_and!; [lia|done|]. simpl.
      by rewrite ?str_drop_0.
    + done.
Qed.

(** X12: the name that [os.path.basename] gives contains no [/]; hence
    the side image [preprocessed_<basename>] of [process_image_file] is
    always written into the current working directory, whatever directory
    the input is in. *)
Theorem side_image_in_working_directory (image_path : string) :
  has_char "/" (basename image_path) = false /\
  has_char "/" ("preprocessed_" +:+ basename image_path) = false.
Proof.
  assert (has_char "/" (basename image_path) = false) as Hbase.
  { unfold basename, rfind.
    pose proof (rfind_from_spec "/" image_path 0 (-1)) as Hspec.
    destruct (has_char "/" image_path) eqn:Hhas.
    - destruct Hspec as (k & -> & _ & Hrest).
      by replace (Z.to_nat (0 + Z.of_nat k + 1)) with (S k) by lia.
    - rewrite Hspec. simpl. by rewrite ?str_drop_0. }
  split; [done|].
  change (has_char "/" ("preprocessed_" +:+ basename image_path))
    with (has_char "/" (basename image_path)).
  done.
Qed.

(** [os.path.splitext] loses nothing and cuts at the last dot of the file
    name: root and extension concatenate to the path, and the extension is
    empty or is a dot followed by characters among which there is neither a
    dot nor a [/]. *)
Lemma splitext_cuts_at_last_dot (p : string) :
  (splitext p).1 +:+ (splitext p).2 = p /\
  ((splitext p).2 = "" \/
   startswith (splitext p).2 "." = true /\
   has_char "." (str_drop 1 (splitext p).2) = false /\
   has_char "/" (splitext p).2 = false).
Proof.
  unfold splitext.
  destruct (rfind "/" p <? rfind "." p) eqn:Hlt;
    [|split; [apply string_app_empty_r|by left]].
  destruct (splitext_scan _ _ _ _);
    [|split; [apply string_app_empty_r|by left]].
  cbn [fst snd]. split; [apply str_take_drop|]. right.
  apply Z.ltb_lt in Hlt. unfold rfind in *.
  pose proof (rfind_from_spec "." p 0 (-1)) as Hdot.
  pose proof (rfind_from_spec "/" p 0 (-1)) as Hsep.
  destruct (has_char "." p).
  - destruct Hdot as (k & Hk & Hget & Hrest). rewrite Hk in *.
    replace (Z.to_nat (0 + Z.of_nat k)) with k by lia.
    assert (forall s, String.get k s = Some "."%char ->
              startswith (str_drop k s) "." = true /\
              str_drop 1 (str_drop k s) = str_drop (S k) s) as Hat.
    { clear. induction k as [|k IH]; intros [|a s] Hget; try done.
      - simpl in Hget. injection Hget as ->. split; [done|].
        simpl. by rewrite ?str_drop_0.
      - by apply IH. }
    destruct (Hat p Hget) as [Hstart Htail]. rewrite Htail.
    split_and!; [done..|].
    destruct (has_char "/" p) eqn:Hslash.
    + destruct Hsep as (j & Hj & _ & Hnone). rewrite Hj in Hlt.
      replace k with (S j + (k - S j))%nat by lia.
      by apply has_char_drop_add.
    + by apply has_char_drop.
  - rewrite Hdot in Hlt. destruct (has_char "/" p).
    + destruct Hsep as (j & Hj & _). lia.
    + lia.
Qed.

(** X13: an input whose file name contains no dot, even under a directory
    whose name has one, has the empty extension: [main] reports it as
    unsupported, with nothing after the colon, and does nothing else. *)
Theorem main_file_name_without_dot (env : Env) (args : Args) (w : World) :
  has_char "." (basename (input args)) = false ->
  main env args w
  = (Ok tt,
     [EPrint "Unsupported file format: ";
      EPrint "Supported formats: PDF, JPG, JPEG, PNG, TIFF, BMP"]).
Proof.
  intros Hname.
  assert (file_ext_of (input args) = "") as Hext.
  { unfold file_ext_of, splitext.
    destruct (rfind "/" (input args) <? rfind "." (input args)) eqn:Hlt;
      [|done].
    exfalso. apply Z.ltb_lt in Hlt. unfold basename, rfind in *.
    pose proof (rfind_from_spec "." (input args) 0 (-1)) as Hdot.
    pose proof (rfind_from_spec "/" (input args) 0 (-1)) as Hsep.
    destruct (has_char "." (input args)).
    - destruct Hdot as (k & Hk & Hget & _). rewrite Hk in Hlt.
      rewrite (has_char_get "." _ k _ Hget) in Hname; [done|].
      destruct (has_char "/" (input args)).
      + destruct Hsep as (j & Hj & _). rewrite Hj in *. lia.
      + rewrite Hsep in *. lia.
    - rewrite Hdot in Hlt. destruct (has_char "/" (input args)).
      + destruct Hsep as (j & Hj & _). lia.
      + lia. }
  unfold main. by rewrite Hext.
Qed.

Lemma main_file_name_without_dot_witness :
  main (sample_env None [] ocr_hello)
    {| input := "scans.d/README"; output := "out.txt"; pages := false;
       pages_dir := "extracted_pages" |} []
  = (Ok tt,
     [EPrint "Unsupported file format: ";
      EPrint "Supported formats: PDF, JPG, JPEG, PNG, TIFF, BMP"]).
Proof.
  exact (main_file_name_without_dot (sample_env None [] ocr_hello)
           {| input := "scans.d/README"; output := "out.txt"; pages := false;
              pages_dir := "extracted_pages" |} [] eq_refl).
Defined.

(** ** Letter case of the path *)

Lemma lower_char_idem (a : ascii) : lower_char (lower_char a) = lower_char a.
Proof. by destruct a as [[] [] [] [] [] [] [] []]. Qed.

Lemma lower_char_eqb_slash (a : ascii) :
  Ascii.eqb (lower_char a) "/" = Ascii.eqb a "/".
Proof. by destruct a as [[] [] [] [] [] [] [] []]. Qed.

Lemma lower_char_eqb_dot (a : ascii) :
  Ascii.eqb (lower_char a) "." = Ascii.eqb a ".".
Proof. by destruct a as [[] [] [] [] [] [] [] []]. Qed.

Lemma lower_idem (s : string) : lower (lower s) = lower s.
Proof.
  induction s as [|a s IH]; [done|]. simpl. by rewrite lower_char_idem, IH.
Qed.

Lemma rfind_from_lower (c : ascii) (s : string) (i last : Z) :
  (forall a, Ascii.eqb (lower_char a) c = Ascii.eqb a c) ->
  rfind_from c (lower s) i last = rfind_from c s i last.
Proof.
  intros Hc. revert i last. induction s as [|a s IH]; intros i last; [done|].
  simpl. by rewrite Hc, IH.
Qed.

Lemma str_drop_lower (k : nat) (s : string) :
  str_drop k (lower s) = lower (str_drop k s).
Proof. revert s. induction k as [|k IH]; intros [|a s]; try done. apply IH. Qed.

Lemma string_get_lower (k : nat) (s : string) :
  String.get k (lower s) = lower_char <$> String.get k s.
Proof. revert k. induction s as [|a s IH]; intros [|k]; try done. apply IH. Qed.

Lemma splitext_scan_lower (p : string) (filenameIndex dotIndex : Z)
    (fuel : nat) :
  splitext_scan (lower p) filenameIndex dotIndex fuel
  = splitext_scan p filenameIndex dotIndex fuel.
Proof.
  revert filenameIndex. induction fuel as [|fuel IH]; intros filenameIndex;
    [done|].
  cbn [splitext_scan]. destruct (filenameIndex <? dotIndex); [|done].
  unfold char_at. destruct (filenameIndex <? 0); [done|].
  rewrite string_get_lower.
  destruct (String.get (Z.to_nat filenameIndex) p) as [a|]; [|done].
  rewrite <- IH. simpl.
  by destruct a as [[] [] [] [] [] [] [] []].
Qed.

Lemma file_ext_of_lower (p : string) : file_ext_of (lower p) = file_ext_of p.
Proof.
  unfold file_ext_of, splitext, rfind.
  rewrite !rfind_from_lower
    by (apply lower_char_eqb_slash || apply lower_char_eqb_dot).
  destruct (_ <? _); [|done].
  rewrite splitext_scan_lower. destruct (splitext_scan _ _ _ _); [|done].
  cbn [snd]. by rewrite str_drop_lower, lower_idem.
Qed.

(** X14: the branch that [main] takes does not depend on the case of the
    ASCII letters anywhere in the path: two paths that differ only in
    letter case have the same lowered extension. *)
Theorem file_ext_ignores_letter_case (p q : string) :
  lower p = lower q -> file_ext_of p = file_ext_of q.
Proof.
  intros Heq. by rewrite <- (file_ext_of_lower p), Heq, file_ext_of_lower.
Qed.

Lemma file_ext_ignores_letter_case_witness :
  lower "Scans/Page.PDF" = lower "scans/page.Pdf" /\
  file_ext_of "Scans/Page.PDF" = file_ext_of "scans/page.Pdf".
Proof.
  split; [reflexivity|].
  exact (file_ext_ignores_letter_case "Scans/Page.PDF" "scans/page.Pdf"
           eq_refl).
Defined.
